(** * ecommerce-rag: a shallow embedding of the RAG pipeline

    The Python services of [app/] are embedded as Rocq functions:

    - [app/core/config.py]               -> [Module config]
    - [app/models/schemas.py]            -> [Module schemas]
    - [app/services/vector_service.py]   -> [Module vector_service]
    - [app/services/rag_service.py]      -> [Module rag_service]
    - [app/services/document_service.py] -> [Module document_service]
    - [app/api/v1/endpoints.py]          -> [Module endpoints]

    Python [str] values are [string]s (one [ascii] per character), the
    [set] of seen texts in [_deduplicate] is a [gset string], a document's
    [metadata] dict is a [gmap string string], and [int]s are [Z].

    The third-party clients (Chroma, the Gemini chat models, pypdf and the
    LangChain text splitter) are not part of the program.  They are gathered
    in a record [World] of oracles; every call the program makes to the
    vector store or to a chat model is appended to an event log that is
    threaded through the computation, so that "which calls were made, in
    which order" is a value one can state theorems about.  Within one
    request a client is a function of the arguments it is called with.
    Exceptions are an explicit [Raise] outcome.  Calls to [logger] have no
    influence on control flow and are left out. *)

From stdpp Require Import gmap strings list.
From Stdlib Require Import ZArith Ascii Lia.

Local Open Scope Z_scope.

(** ** Python string operations used by the services *)

Module pystr.

(** [x in s] for two [str]s: [x] occurs in [s] as a contiguous substring. *)
Fixpoint contains (x s : string) : bool :=
  String.prefix x s ||
  match s with
  | EmptyString => false
  | String _ s' => contains x s'
  end.

(** [s[:n]]: the first [n] characters, or all of [s] when it is shorter. *)
Fixpoint slice_to (n : nat) (s : string) : string :=
  match n, s with
  | S n', String c s' => String c (slice_to n' s')
  | _, _ => EmptyString
  end.

(** [sep.join(parts)]. *)
Fixpoint join (sep : string) (parts : list string) : string :=
  match parts with
  | [] => EmptyString
  | [p] => p
  | p :: rest => p +:+ sep +:+ join sep rest
  end.

(** Characters for which [str.isspace] holds, among the 256 modelled. *)
Definition isspace (c : ascii) : bool :=
  let n := nat_of_ascii c in
  ((9 <=? n) && (n <=? 13))%nat || ((28 <=? n) && (n <=? 32))%nat
  || (n =? 133)%nat || (n =? 160)%nat.

Fixpoint lstrip (s : string) : string :=
  match s with
  | String c s' => if isspace c then lstrip s' else s
  | EmptyString => EmptyString
  end.

Definition rstrip (s : string) : string :=
  String.rev (lstrip (String.rev s)).

(** [s.strip()]. *)
Definition strip (s : string) : string := rstrip (lstrip s).

(** Truthiness of a [str]: non-empty. *)
Definition truthy (s : string) : bool :=
  match s with EmptyString => false | _ => true end.

Definition newline : string := String "010"%char EmptyString.
Definition dquote : string := String "034"%char EmptyString.

End pystr.

(** ** Outcomes, exceptions and the event log *)

(** What evaluating a Python expression ends in: a value, or an exception. *)
Inductive Outcome (E A : Type) : Type :=
| Return (a : A)
| Raise (e : E).
Arguments Return {E A} a.
Arguments Raise {E A} e.

(** An exception raised by a third-party client.  The program observes such
    an exception only through [str(e)] and re-raises it unchanged. *)
Record Exception : Type := mkException { str : string }.

(** [fastapi.HTTPException(status_code=..., detail=...)]. *)
Record HTTPException : Type := mkHTTPException {
  status_code : Z;
  detail : string;
}.

(** A LangChain [Document]. *)
Record Document : Type := mkDocument {
  page_content : string;
  metadata : gmap string string;
}.

#[global] Instance Exception_eq_dec : EqDecision Exception.
Proof. solve_decision. Defined.

#[global] Instance Document_eq_dec : EqDecision Document.
Proof. solve_decision. Defined.

(** Calls that leave the process. *)
Inductive Event : Type :=
| similarity_search_call (query : string) (k : Z)
| add_texts_call (texts : list string) (metadatas : list (gmap string string))
| ainvoke_call (model_name prompt : string) (result : Outcome Exception string).

(** A computation that may raise [E], and that extends the event log. *)
Definition M (E A : Type) : Type := list Event -> Outcome E A * list Event.

Definition ret {E A} (a : A) : M E A := fun log => (Return a, log).
Definition raise {E A} (e : E) : M E A := fun log => (Raise e, log).

Definition bind {E A B} (c : M E A) (k : A -> M E B) : M E B :=
  fun log =>
    match c log with
    | (Return a, log') => k a log'
    | (Raise e, log') => (Raise e, log')
    end.

(** [try: c  except Exception as e: h e]. *)
Definition try_except {E E' A} (c : M E A) (h : E -> M E' A) : M E' A :=
  fun log =>
    match c log with
    | (Return a, log') => (Return a, log')
    | (Raise e, log') => h e log'
    end.

(** Perform an external call: log it, then continue with its outcome. *)
Definition call {E A} (ev : Event) (r : Outcome E A) : M E A :=
  fun log => (r, log ++ [ev]).

(** A step without external call, from its outcome. *)
Definition lift {E A} (r : Outcome E A) : M E A := fun log => (r, log).

(** The same computation with its exceptions injected into a larger type. *)
Definition map_error {E E' A} (f : E -> E') (c : M E A) : M E' A :=
  try_except c (fun e => raise (f e)).

(** Run a request against an empty log. *)
Definition run {E A} (c : M E A) : Outcome E A * list Event := c [].

Notation "'let*' x ':=' c 'in' k" := (bind c (fun x => k))
  (at level 10, x name, c at level 100, k at level 200).

(** The model invocations recorded in a log, oldest first. *)
Definition attempts (log : list Event) : list (string * Outcome Exception string) :=
  omap (fun ev => match ev with
                  | ainvoke_call name _ r => Some (name, r)
                  | _ => None
                  end) log.

(** The [add_texts] calls recorded in a log. *)
Definition stored (log : list Event) : list (list string * list (gmap string string)) :=
  omap (fun ev => match ev with
                  | add_texts_call ts ms => Some (ts, ms)
                  | _ => None
                  end) log.

(** The third-party behaviour a request runs against. *)
Record World : Type := mkWorld {
  (** [Chroma.similarity_search(query, k=k)] *)
  similarity_search : string -> Z -> Outcome Exception (list Document);
  (** [Chroma.add_texts(texts=..., metadatas=...)] *)
  chroma_add_texts : list string -> list (gmap string string) -> Outcome Exception unit;
  (** [ChatGoogleGenerativeAI(model=name, ...)], run on a rendered prompt
      and piped through [StrOutputParser] *)
  ChatGoogleGenerativeAI : string -> string -> Outcome Exception string;
  (** [PdfReader(f).pages], each page with what [extract_text()] does *)
  PdfReader : string -> Outcome Exception (list (Outcome Exception string));
  (** [RecursiveCharacterTextSplitter(chunk_size, chunk_overlap,
      separators).split_text(text)] *)
  split_text : Z -> Z -> list string -> string -> list string;
}.

(** ** app/core/config.py *)

Module config.

Record Settings : Type := mkSettings {
  LLM_MODEL : string;
  LLM_FALLBACK_MODELS : list string;
}.

(** The defaults of the class body. *)
Definition settings : Settings :=
  {| LLM_MODEL := "gemini-2.0-flash";
     LLM_FALLBACK_MODELS := ["gemini-2.0-flash-lite"; "gemini-2.5-flash"] |}.

End config.

(** ** app/services/vector_service.py *)

Module vector_service.

Definition add_texts (w : World) (texts : list string)
    (metadatas : list (gmap string string)) : M Exception unit :=
  try_except
    (call (add_texts_call texts metadatas) (chroma_add_texts w texts metadatas))
    (fun e => raise e).

Definition search_similar (w : World) (query : string) (k : Z)
    : M Exception (list Document) :=
  call (similarity_search_call query k) (similarity_search w query k).

End vector_service.


(** ** app/models/schemas.py *)

Module schemas.

Record DocumentResponse : Type := mkDocumentResponse {
  filename : string;
  content_type : string;
  size : Z;
  chunks_created : Z;
  message : string;
}.

Record ChatRequest : Type := mkChatRequest {
  query : string;
  k : Z;
}.

Record Source : Type := mkSource {
  source : string;
  content : string;
}.

Record ChatResponse : Type := mkChatResponse {
  answer : string;
  sources : list Source;
}.

(** The JSON body of a [/chat] request before validation: each field may be
    absent. *)
Record ChatBody : Type := mkChatBody {
  body_query : option string;
  body_k : option Z;
}.

(** Pydantic's validation of a body against [ChatRequest]:
    [query: str = Field(..., min_length=1)] and
    [k: int = Field(default=3, ge=1, le=10)].  [None] is a validation
    error. *)
Definition validate (body : ChatBody) : option ChatRequest :=
  match body_query body with
  | None => None
  | Some q =>
      if (1 <=? String.length q)%nat then
        let k := default 3 (body_k body) in
        if (1 <=? k) && (k <=? 10) then Some {| query := q; k := k |}
        else None
      else None
  end.

End schemas.

(** ** app/services/rag_service.py *)

Module rag_service.

(** The two result dicts of [generate_answer], with their keys as fields. *)
Record SourceDict : Type := mkSourceDict {
  source : string;
  content : string;
}.

Record AnswerDict : Type := mkAnswerDict {
  answer : string;
  sources : list SourceDict;
}.

(** [SYSTEM_PROMPT] with [{context}] and [{question}] filled in, as
    [ChatPromptTemplate.from_template(SYSTEM_PROMPT)] renders it. *)
Definition SYSTEM_PROMPT (context question : string) : string :=
  "You are a helpful and professional AI assistant for an E-Commerce system."
  +:+ pystr.newline +:+ pystr.newline
  +:+ "Answer the question based ONLY on the following context."
  +:+ pystr.newline
  +:+ "If the answer is not in the context, strictly say "
  +:+ pystr.dquote +:+ "I don't have enough information to answer that."
  +:+ pystr.dquote +:+ pystr.newline
  +:+ "Do not make up facts." +:+ pystr.newline +:+ pystr.newline
  +:+ "Context:" +:+ pystr.newline
  +:+ context +:+ pystr.newline +:+ pystr.newline
  +:+ "Question:" +:+ pystr.newline
  +:+ question +:+ pystr.newline.

(** A chat model bound to its name: from a rendered prompt to the reply. *)
Definition LLM : Type := string -> Outcome Exception string.

Record RAGService : Type := mkRAGService {
  model_names : list string;
  llms : list LLM;
}.

Definition __init__ (w : World) (settings : config.Settings) : RAGService :=
  let model_names := config.LLM_MODEL settings :: config.LLM_FALLBACK_MODELS settings in
  {| model_names := model_names;
     llms := map (ChatGoogleGenerativeAI w) model_names |}.

Definition _format_docs (docs : list Document) : string :=
  pystr.join (pystr.newline +:+ pystr.newline) (map page_content docs).

(** One iteration of the loop of [_deduplicate] on the pair [(seen, unique)]. *)
Definition _deduplicate_step (st : gset string * list Document) (doc : Document)
    : gset string * list Document :=
  let '(seen, unique) := st in
  if decide (page_content doc ∈ seen) then (seen, unique)
  else ({[page_content doc]} ∪ seen, unique ++ [doc]).

Definition _deduplicate (docs : list Document) : list Document :=
  snd (foldl _deduplicate_step (∅, []) docs).

(** [doc.metadata.get("source", "unknown")]. *)
Definition source_of (doc : Document) : string :=
  default "unknown" (metadata doc !! "source").

(** The list comprehension that builds [sources]. *)
Definition sources_of (unique_docs : list Document) : list SourceDict :=
  map (fun doc => {| source := source_of doc;
                     content := pystr.slice_to 200 (page_content doc) +:+ "..." |})
      unique_docs.

(** The test of the [except] branch. *)
Definition rate_limited (e : Exception) : bool :=
  pystr.contains "RESOURCE_EXHAUSTED" (str e) || pystr.contains "429" (str e).

(** The [for llm, model_name in zip(self.llms, self.model_names)] loop and
    the two lines after it.  [last_error] is [None] until an iteration has
    caught an exception; [raise None] is a [TypeError]. *)
Fixpoint try_models (pairs : list (LLM * string)) (context_text query : string)
    (unique_docs : list Document) (last_error : option Exception)
    : M Exception AnswerDict :=
  match pairs with
  | [] =>
      match last_error with
      | Some e => raise e
      | None => raise (mkException "exceptions must derive from BaseException")
      end
  | (llm, model_name) :: rest =>
      let prompt := SYSTEM_PROMPT context_text query in
      try_except
        (let* answer := call (ainvoke_call model_name prompt (llm prompt)) (llm prompt) in
         ret {| answer := answer; sources := sources_of unique_docs |})
        (fun e =>
           if rate_limited e
           then try_models rest context_text query unique_docs (Some e)
           else raise e)
  end.

Definition generate_answer (self : RAGService) (w : World) (query : string) (k : Z)
    : M Exception AnswerDict :=
  let* docs := vector_service.search_similar w query k in
  match docs with
  | [] =>
      ret {| answer := "I couldn't find any relevant documents to answer your question.";
             sources := [] |}
  | _ :: _ =>
      let unique_docs := _deduplicate docs in
      let context_text := _format_docs unique_docs in
      try_models (zip (llms self) (model_names self)) context_text query unique_docs None
  end.

End rag_service.

(** ** app/services/document_service.py *)

Module document_service.

(** What the service reads of a [fastapi.UploadFile]. *)
Record UploadFile : Type := mkUploadFile {
  filename : string;
  content_type : option string;
  size : option Z;
  file : string;
}.

Record DocumentService : Type := mkDocumentService {
  chunk_size : Z;
  chunk_overlap : Z;
  separators : list string;
}.

Definition __init__ : DocumentService :=
  {| chunk_size := 1000;
     chunk_overlap := 200;
     separators := [pystr.newline +:+ pystr.newline; pystr.newline; " "; EmptyString] |}.

(** The [for page in pdf_reader.pages] loop, from the current
    [text_content]. *)
Fixpoint extract_pages (pages : list (Outcome Exception string)) (text_content : string)
    : Outcome Exception string :=
  match pages with
  | [] => Return text_content
  | Raise e :: _ => Raise e
  | Return extracted :: rest =>
      extract_pages rest
        (if pystr.truthy extracted
         then text_content +:+ extracted +:+ pystr.newline
         else text_content)
  end.

(** The body of the [try] block: it raises an [HTTPException] of its own
    ([inl]) or lets a pypdf exception escape ([inr]). *)
Definition read_text (w : World) (file : UploadFile)
    : M (HTTPException + Exception) string :=
  let* pages := map_error inr (lift (PdfReader w (document_service.file file))) in
  let* text_content := map_error inr (lift (extract_pages pages EmptyString)) in
  if pystr.truthy (pystr.strip text_content)
  then ret text_content
  else raise (inl {| status_code := 422;
                     detail := "PDF contains no extractable text (may be scanned/image-based)." |}).

Definition process_file (self : DocumentService) (w : World) (file : UploadFile)
    : M HTTPException (list string) :=
  if decide (content_type file <> Some "application/pdf") then
    raise {| status_code := 400; detail := "Only PDF files are supported." |}
  else
    let* text_content :=
      try_except (read_text w file)
        (fun err =>
           match err with
           | inl http => raise http
           | inr e => raise {| status_code := 500;
                               detail := "Failed to process PDF: " +:+ str e |}
           end) in
    ret (split_text w (chunk_size self) (chunk_overlap self) (separators self) text_content).

End document_service.

(** ** app/api/v1/endpoints.py *)

Module endpoints.

Record SearchResponse : Type := mkSearchResponse {
  query : string;
  results : list string;
}.

(** What FastAPI answers to a request: the body or parameters fail
    validation and the handler is never called, or the handler runs. *)
Inductive Reply (A : Type) : Type :=
| RequestValidationError
| Handled (result : Outcome HTTPException A) (log : list Event).
Arguments RequestValidationError {A}.
Arguments Handled {A} result log.

Definition upload_document (w : World) (file : document_service.UploadFile)
    : M HTTPException schemas.DocumentResponse :=
  try_except
    (let* chunks := map_error inl
        (document_service.process_file document_service.__init__ w file) in
     let metadatas :=
       map (fun _ => ({["source" := document_service.filename file]} : gmap string string))
           chunks in
     let* _ := map_error inr (vector_service.add_texts w chunks metadatas) in
     ret {| schemas.filename := document_service.filename file;
            (* [None] cannot reach this line: [process_file] has raised *)
            schemas.content_type := default EmptyString (document_service.content_type file);
            schemas.size := default 0 (document_service.size file);
            schemas.chunks_created := Z.of_nat (length chunks);
            schemas.message := "File processed and embeddings stored successfully." |})
    (fun err : HTTPException + Exception =>
       match err with
       | inl http => raise http
       | inr e => raise {| status_code := 500; detail := str e |}
       end).

Definition search_documents (w : World) (query : string) (k : Z)
    : M HTTPException SearchResponse :=
  try_except
    (let* results := vector_service.search_similar w query k in
     ret {| query := query; results := map page_content results |})
    (fun e => raise {| status_code := 500; detail := str e |}).

Definition to_Source (d : rag_service.SourceDict) : schemas.Source :=
  {| schemas.source := rag_service.source d;
     schemas.content := rag_service.content d |}.

Definition chat_with_docs (rag : rag_service.RAGService) (w : World)
    (request : schemas.ChatRequest) : M HTTPException schemas.ChatResponse :=
  try_except
    (let* response :=
        rag_service.generate_answer rag w (schemas.query request) (schemas.k request) in
     ret {| schemas.answer := rag_service.answer response;
            schemas.sources := map to_Source (rag_service.sources response) |})
    (fun e => raise {| status_code := 500; detail := str e |}).

(** [POST /search]: [query: str = Body(..., embed=True)] is required,
    [k: int = 3] is an optional query parameter. *)
Definition post_search (w : World) (body_query : option string) (param_k : option Z)
    : Reply SearchResponse :=
  match body_query with
  | None => RequestValidationError
  | Some q =>
      let '(r, log) := run (search_documents w q (default 3 param_k)) in
      Handled r log
  end.

(** [POST /chat]: the body is validated against [ChatRequest] first. *)
Definition post_chat (rag : rag_service.RAGService) (w : World) (body : schemas.ChatBody)
    : Reply schemas.ChatResponse :=
  match schemas.validate body with
  | None => RequestValidationError
  | Some request =>
      let '(r, log) := run (chat_with_docs rag w request) in
      Handled r log
  end.

(** [POST /upload]. *)
Definition post_upload (w : World) (file : document_service.UploadFile)
    : Reply schemas.DocumentResponse :=
  let '(r, log) := run (upload_document w file) in
  Handled r log.

End endpoints.

(** ** Specification-level definitions *)

(** The documents that are the first of their text: position [i] is kept
    when no earlier position carries the same [page_content]. *)
Definition first_occurrences (docs : list Document) : list Document :=
  omap id
    (imap (fun i d =>
             if decide (page_content d ∈ page_content <$> take i docs)
             then None else Some d)
          docs).

(** [_deduplicate] without accumulator: what the loop appends to [unique]
    when it starts from [seen]. *)
Fixpoint keep (seen : gset string) (docs : list Document) : list Document :=
  match docs with
  | [] => []
  | d :: rest =>
      if decide (page_content d ∈ seen) then keep seen rest
      else d :: keep ({[page_content d]} ∪ seen) rest
  end.

(** The log entry of invoking one [(llm, model_name)] pair on [prompt]. *)
Definition invoke_event (prompt : string) (pair : rag_service.LLM * string) : Event :=
  ainvoke_call pair.2 prompt (pair.1 prompt).

(** The pair's model answers [prompt] with a rate-limit-class error. *)
Definition rate_limit_failure (prompt : string) (pair : rag_service.LLM * string) : Prop :=
  exists e, pair.1 prompt = Raise e /\ rag_service.rate_limited e = true.

(** The value of [last_error] after the loop has gone through [pairs], all
    of which raised. *)
Definition last_error_after (prompt : string) (pairs : list (rag_service.LLM * string))
    (last_error : option Exception) : option Exception :=
  foldl (fun acc (pair : rag_service.LLM * string) =>
           match pair.1 prompt with
           | Raise e => Some e
           | Return _ => acc
           end) last_error pairs.

(** [raise last_error]. *)
Definition raise_last {A} (last_error : option Exception) : Outcome Exception A :=
  match last_error with
  | Some e => Raise e
  | None => Raise (mkException "exceptions must derive from BaseException")
  end.

(** The prompt [generate_answer] sends for a retrieval [docs]. *)
Definition prompt_for (docs : list Document) (query : string) : string :=
  rag_service.SYSTEM_PROMPT
    (rag_service._format_docs (rag_service._deduplicate docs)) query.

(** The result of [generate_answer] when nothing was retrieved. *)
Definition no_documents_answer : rag_service.AnswerDict :=
  {| rag_service.answer :=
       "I couldn't find any relevant documents to answer your question.";
     rag_service.sources := [] |}.

(** The log entry of invoking the model called [name], for a service built
    by [__init__]. *)
Definition model_event (w : World) (prompt name : string) : Event :=
  ainvoke_call name prompt (ChatGoogleGenerativeAI w name prompt).

(** The model called [name] answers [prompt] with a rate-limit-class
    error. *)
Definition model_rate_limited (w : World) (prompt name : string) : Prop :=
  exists e, ChatGoogleGenerativeAI w name prompt = Raise e
            /\ rag_service.rate_limited e = true.

(** The three ways the loop of [generate_answer] ends, with the result and
    the events it adds to the log: a model answers after a run of
    rate-limited ones; a model raises another error after such a run; every
    model is rate-limited. *)
Inductive loop_end (context_text query : string) (unique_docs : list Document)
    (pairs : list (rag_service.LLM * string)) (last_error : option Exception)
    : Outcome Exception rag_service.AnswerDict -> list Event -> Prop :=
| loop_answered pre llm name rest text :
    pairs = pre ++ (llm, name) :: rest ->
    Forall (rate_limit_failure (rag_service.SYSTEM_PROMPT context_text query)) pre ->
    llm (rag_service.SYSTEM_PROMPT context_text query) = Return text ->
    loop_end context_text query unique_docs pairs last_error
      (Return {| rag_service.answer := text;
                 rag_service.sources := rag_service.sources_of unique_docs |})
      (invoke_event (rag_service.SYSTEM_PROMPT context_text query)
         <$> pre ++ [(llm, name)])
| loop_aborted pre llm name rest e :
    pairs = pre ++ (llm, name) :: rest ->
    Forall (rate_limit_failure (rag_service.SYSTEM_PROMPT context_text query)) pre ->
    llm (rag_service.SYSTEM_PROMPT context_text query) = Raise e ->
    rag_service.rate_limited e = false ->
    loop_end context_text query unique_docs pairs last_error (Raise e)
      (invoke_event (rag_service.SYSTEM_PROMPT context_text query)
         <$> pre ++ [(llm, name)])
| loop_exhausted :
    Forall (rate_limit_failure (rag_service.SYSTEM_PROMPT context_text query)) pairs ->
    loop_end context_text query unique_docs pairs last_error
      (raise_last
         (last_error_after (rag_service.SYSTEM_PROMPT context_text query)
            pairs last_error))
      (invoke_event (rag_service.SYSTEM_PROMPT context_text query) <$> pairs).

(** ** Stubs for concrete runs *)

(** A world whose store returns [docs] for every search, whose chat models
    behave as [reply] says, and whose other clients do nothing. *)
Definition stub_world (docs : list Document)
    (reply : string -> Outcome Exception string) : World :=
  {| similarity_search := fun _ _ => Return docs;
     chroma_add_texts := fun _ _ => Return tt;
     ChatGoogleGenerativeAI := fun name _ => reply name;
     PdfReader := fun _ => Return [];
     split_text := fun _ _ _ _ => [] |}.

Definition shoes_doc : Document :=
  {| page_content := "Trail shoes ship within two days.";
     metadata := {["source" := "catalog.pdf"]} |}.

(** The first two configured models are out of quota, the third answers. *)
Definition third_answers (name : string) : Outcome Exception string :=
  if decide (name = "gemini-2.0-flash") then
    Raise (mkException "429 Too Many Requests")
  else if decide (name = "gemini-2.0-flash-lite") then
    Raise (mkException "RESOURCE_EXHAUSTED: quota exceeded")
  else Return "Two days.".

(** The first model is out of quota, the second is misconfigured. *)
Definition second_breaks (name : string) : Outcome Exception string :=
  if decide (name = "gemini-2.0-flash") then
    Raise (mkException "429 Too Many Requests")
  else if decide (name = "gemini-2.0-flash-lite") then
    Raise (mkException "API key not valid")
  else Return "Two days.".

(** Every model is out of quota. *)
Definition all_out_of_quota (name : string) : Outcome Exception string :=
  if decide (name = "gemini-2.5-flash") then
    Raise (mkException "RESOURCE_EXHAUSTED: daily quota")
  else Raise (mkException "429 Too Many Requests").

(** Every model answers. *)
Definition all_answer (name : string) : Outcome Exception string :=
  Return "Two days.".

(** Two chunks with the same text from different files, and a third chunk
    of the second file. *)
Definition returns_a : Document :=
  {| page_content := "Returns are free."; metadata := {["source" := "a.pdf"]} |}.
Definition returns_b : Document :=
  {| page_content := "Returns are free."; metadata := {["source" := "b.pdf"]} |}.
Definition sizes_b : Document :=
  {| page_content := "Sizes run small."; metadata := {["source" := "b.pdf"]} |}.

(** An upload that is not a PDF, and one that is. *)
Definition notes_txt : document_service.UploadFile :=
  {| document_service.filename := "notes.txt";
     document_service.content_type := Some "text/plain";
     document_service.size := Some 12;
     document_service.file := "hello, world" |}.

Definition blank_pdf : document_service.UploadFile :=
  {| document_service.filename := "scan.pdf";
     document_service.content_type := Some "application/pdf";
     document_service.size := Some 4;
     document_service.file := "%PDF" |}.

(** A world whose PDF reader finds one page, with [page_text] on it. *)
Definition one_page_world (page_text : string) : World :=
  {| similarity_search := fun _ _ => Return [];
     chroma_add_texts := fun _ _ => Return tt;
     ChatGoogleGenerativeAI := fun _ _ => Return EmptyString;
     PdfReader := fun _ => Return [Return page_text];
     split_text := fun _ _ _ text => [text] |}.



(** Every character of [s] is whitespace for [str.isspace]. *)
Fixpoint all_isspace (s : string) : bool :=
  match s with
  | EmptyString => true
  | String c s' => pystr.isspace c && all_isspace s'
  end.

(** The texts of the pages that have some, each followed by a newline, one
    after the other. *)
Fixpoint page_texts (texts : list string) : string :=
  match texts with
  | [] => EmptyString
  | t :: rest =>
      if pystr.truthy t then t +:+ pystr.newline +:+ page_texts rest
      else page_texts rest
  end.

(** A world for uploads: the PDF reader answers [reader], the store answers
    [added] to [add_texts], and the splitter returns the text as one
    chunk. *)
Definition upload_world (reader : Outcome Exception (list (Outcome Exception string)))
    (added : Outcome Exception unit) : World :=
  {| similarity_search := fun _ _ => Return [];
     chroma_add_texts := fun _ _ => added;
     ChatGoogleGenerativeAI := fun _ _ => Return EmptyString;
     PdfReader := fun _ => reader;
     split_text := fun _ _ _ text => [text] |}.

Definition catalog_pdf : document_service.UploadFile :=
  {| document_service.filename := "catalog.pdf";
     document_service.content_type := Some "application/pdf";
     document_service.size := None;
     document_service.file := "%PDF-1.7" |}.

(** The world [w], except that its store returns [docs] for every search. *)
Definition with_retrieval (w : World) (docs : list Document) : World :=
  {| similarity_search := fun _ _ => Return docs;
     chroma_add_texts := chroma_add_texts w;
     ChatGoogleGenerativeAI := ChatGoogleGenerativeAI w;
     PdfReader := PdfReader w;
     split_text := split_text w |}.

(** A world whose store fails every search with [e]. *)
Definition failing_search_world (e : Exception)
    (reply : string -> Outcome Exception string) : World :=
  {| similarity_search := fun _ _ => Raise e;
     chroma_add_texts := fun _ _ => Return tt;
     ChatGoogleGenerativeAI := fun name _ => reply name;
     PdfReader := fun _ => Return [];
     split_text := fun _ _ _ _ => [] |}.

(** * Properties *)

(** ** Strings *)

Section strings.

Lemma append_cons c (x b : string) : String c x +:+ b = String c (x +:+ b).
Proof. reflexivity. Qed.

Lemma prefix_append (x : string) :
  forall s, String.prefix x s = true <-> exists b, s = x +:+ b.
Proof.
  induction x as [|c x IH]; intros s; simpl.
  - split; [intros _; by exists s | by destruct s].
  - destruct s as [|c' s]; simpl.
    + split; [done | by intros [b ?]].
    + destruct (Ascii.ascii_dec c c') as [->|Hne].
      * rewrite IH. split; intros [b Hb]; exists b; rewrite append_cons in *; congruence.
      * split; [done | intros [b Hb]; rewrite append_cons in Hb; congruence].
Qed.

(** [pystr.contains] is Python's [in]: [x] lies somewhere inside [s]. *)
Lemma contains_substring (x : string) :
  forall s, pystr.contains x s = true <-> exists a b, s = a +:+ x +:+ b.
Proof.
  induction s as [|c s IH]; cbn [pystr.contains].
  - rewrite orb_false_r, prefix_append. split.
    + intros [b Hb]. by exists EmptyString, b.
    + intros ([|c a] & b & Hab); [by exists b | done].
  - rewrite orb_true_iff, IH, prefix_append. split.
    + intros [[b Hb]|(a & b & Hab)].
      * by exists EmptyString, b.
      * exists (String c a), b. by rewrite append_cons, Hab.
    + intros ([|c' a] & b & Hab).
      * left. by exists b.
      * right. rewrite append_cons in Hab. injection Hab as -> ->. by exists a, b.
Qed.

Example quota_error_is_rate_limited :
  rag_service.rate_limited (mkException "Error 429: quota exceeded") = true.
Proof. reflexivity. Qed.

Example key_error_is_not_rate_limited :
  rag_service.rate_limited (mkException "API key not valid") = false.
Proof. reflexivity. Qed.

Example strip_blank_page :
  pystr.strip (" " +:+ pystr.newline) = EmptyString.
Proof. reflexivity. Qed.

End strings.

(** ** Deduplication *)

Section deduplicate.

Import rag_service.

Lemma foldl_deduplicate_step (docs : list Document) :
  forall seen unique,
    snd (foldl _deduplicate_step (seen, unique) docs) = unique ++ keep seen docs.
Proof.
  induction docs as [|d rest IH]; intros seen unique; simpl.
  - by rewrite app_nil_r.
  - destruct (decide (page_content d ∈ seen)); rewrite IH; [done|].
    by rewrite <- app_assoc.
Qed.

Lemma deduplicate_keep (docs : list Document) : _deduplicate docs = keep ∅ docs.
Proof. unfold _deduplicate. by rewrite foldl_deduplicate_step. Qed.

Lemma keep_sublist (docs : list Document) : forall seen, sublist (keep seen docs) docs.
Proof.
  induction docs as [|d rest IH]; intros seen; simpl; [constructor|].
  destruct (decide _); [apply sublist_cons | apply sublist_skip]; apply IH.
Qed.

Lemma keep_texts_fresh (docs : list Document) :
  forall seen d, d ∈ keep seen docs -> page_content d ∉ seen.
Proof.
  induction docs as [|x rest IH]; intros seen d; simpl; [by intros ?%elem_of_nil|].
  destruct (decide _) as [|Hx]; [apply IH|].
  intros [->|Hin]%elem_of_cons; [done|].
  apply IH in Hin. set_solver.
Qed.

Lemma keep_NoDup (docs : list Document) :
  forall seen, NoDup (page_content <$> keep seen docs).
Proof.
  induction docs as [|x rest IH]; intros seen; simpl; [constructor|].
  destruct (decide _); [apply IH|].
  rewrite fmap_cons. constructor; [|apply IH].
  intros (d & Hd & Hin)%list_elem_of_fmap.
  apply keep_texts_fresh in Hin. set_solver.
Qed.

Lemma keep_covers (docs : list Document) :
  forall seen d, d ∈ docs ->
    page_content d ∈ seen \/ page_content d ∈ page_content <$> keep seen docs.
Proof.
  induction docs as [|x rest IH]; intros seen d; simpl; [by intros ?%elem_of_nil|].
  intros [->|Hin]%elem_of_cons.
  - destruct (decide _); [by left|]. right. rewrite fmap_cons. left.
  - destruct (decide _); [by apply IH|].
    destruct (IH ({[page_content x]} ∪ seen) d Hin) as [Hs|Hk].
    + apply elem_of_union in Hs as [Hs|Hs]; [|by left].
      apply elem_of_singleton in Hs. right. rewrite fmap_cons, Hs. left.
    + right. rewrite fmap_cons. by right.
Qed.

Lemma keep_fixed (l : list Document) :
  forall seen,
    NoDup (page_content <$> l) ->
    (forall d, d ∈ l -> page_content d ∉ seen) ->
    keep seen l = l.
Proof.
  induction l as [|x rest IH]; intros seen Hnd Hfresh; simpl; [done|].
  rewrite fmap_cons in Hnd. apply NoDup_cons in Hnd as [Hx Hnd].
  destruct (decide _) as [Hin|_].
  - exfalso. apply (Hfresh x); [left | done].
  - f_equal. apply IH; [done|].
    intros d Hd. apply not_elem_of_union. split.
    + intros Heq%elem_of_singleton. apply Hx, list_elem_of_fmap. eauto.
    + apply Hfresh. by right.
Qed.

Lemma keep_positions (docs : list Document) :
  forall seen,
    keep seen docs =
    omap id
      (imap (fun i d =>
               if decide (page_content d ∈ seen
                          \/ page_content d ∈ page_content <$> take i docs)
               then None else Some d)
            docs).
Proof.
  induction docs as [|x rest IH]; intros seen; [done|].
  rewrite imap_cons. simpl.
  destruct (decide (page_content x ∈ seen)) as [Hx|Hx].
  - rewrite decide_True by (by left). simpl. rewrite IH. f_equal.
    apply imap_ext. intros i d _. unfold compose. cbn [take]. apply decide_ext.
    rewrite fmap_cons, elem_of_cons. split; [tauto|].
    intros [?|[->|?]]; tauto.
  - rewrite decide_False by (intros [?|?%elem_of_nil]; done). simpl. f_equal.
    rewrite IH. f_equal.
    apply imap_ext. intros i d _. unfold compose. cbn [take]. apply decide_ext.
    rewrite fmap_cons, elem_of_cons, elem_of_union, elem_of_singleton. tauto.
Qed.

Example first_occurrences_of_four :
  first_occurrences [returns_a; returns_b; sizes_b; returns_a] = [returns_a; sizes_b]
  /\ _deduplicate [returns_a; returns_b; sizes_b; returns_a] = [returns_a; sizes_b].
Proof. split; reflexivity. Qed.

(** [C5] Deduplication keeps exactly the first occurrence of each distinct
    [page_content], in input order: its result is the list of the documents
    at the positions whose text occurs at no earlier position
    ([first_occurrences]); it is a sublist of the input, carries each text
    once, and carries every text of the input.  Deduplication is idempotent:
    applying it twice yields the same list as applying it once. *)
Theorem deduplicate_first_occurrence_idempotent (docs : list Document) :
  _deduplicate docs = first_occurrences docs
  /\ sublist (_deduplicate docs) docs
  /\ NoDup (page_content <$> _deduplicate docs)
  /\ (forall d, d ∈ docs -> page_content d ∈ page_content <$> _deduplicate docs)
  /\ _deduplicate (_deduplicate docs) = _deduplicate docs.
Proof.
  rewrite !deduplicate_keep. repeat split.
  - rewrite keep_positions. unfold first_occurrences. f_equal.
    apply imap_ext. intros i d _. apply decide_ext.
    split; [intros [?%elem_of_empty|?]; done | by right].
  - apply keep_sublist.
  - apply keep_NoDup.
  - intros d Hd. destruct (keep_covers docs ∅ d Hd) as [Hs|Hk]; [set_solver|done].
  - apply keep_fixed; [apply keep_NoDup|]. intros d _. set_solver.
Qed.

End deduplicate.

(** ** The fallback loop *)

Section fallback.

Import rag_service.

Variables (context_text query : string) (unique_docs : list Document).

Let prompt := SYSTEM_PROMPT context_text query.

Lemma try_models_nil last_error log :
  try_models [] context_text query unique_docs last_error log
  = (raise_last last_error, log).
Proof. by destruct last_error. Qed.

Lemma try_models_success llm model_name rest last_error log text :
  llm prompt = Return text ->
  try_models ((llm, model_name) :: rest) context_text query unique_docs last_error log
  = (Return {| answer := text; sources := sources_of unique_docs |},
     log ++ [invoke_event prompt (llm, model_name)]).
Proof.
  intros H. simpl. unfold try_except, bind, call, ret, invoke_event. simpl.
  fold prompt. by rewrite H.
Qed.

Lemma try_models_fatal llm model_name rest last_error log e :
  llm prompt = Raise e -> rate_limited e = false ->
  try_models ((llm, model_name) :: rest) context_text query unique_docs last_error log
  = (Raise e, log ++ [invoke_event prompt (llm, model_name)]).
Proof.
  intros H Hrl. simpl. unfold try_except, bind, call, raise, invoke_event. simpl.
  fold prompt. by rewrite H, Hrl.
Qed.

Lemma try_models_rate_limited llm model_name rest last_error log e :
  llm prompt = Raise e -> rate_limited e = true ->
  try_models ((llm, model_name) :: rest) context_text query unique_docs last_error log
  = try_models rest context_text query unique_docs (Some e)
      (log ++ [invoke_event prompt (llm, model_name)]).
Proof.
  intros H Hrl. simpl. unfold try_except, bind, call, invoke_event. simpl.
  fold prompt. by rewrite H, Hrl.
Qed.

(** A prefix of rate-limited models is gone through, each invoked once. *)
Lemma try_models_skip pre :
  forall rest last_error log,
    Forall (rate_limit_failure prompt) pre ->
    try_models (pre ++ rest) context_text query unique_docs last_error log
    = try_models rest context_text query unique_docs
        (last_error_after prompt pre last_error)
        (log ++ (invoke_event prompt <$> pre)).
Proof.
  induction pre as [|[llm name] pre IH]; intros rest last_error log Hpre.
  - simpl. by rewrite app_nil_r.
  - apply Forall_cons in Hpre as [(e & He & Hrl) Hpre]. simpl in He.
    rewrite <- app_comm_cons, (try_models_rate_limited _ _ _ _ _ e He Hrl).
    rewrite IH by done. simpl. rewrite He. by rewrite <- app_assoc.
Qed.

Lemma try_models_end pairs :
  forall last_error log,
    exists res new,
      try_models pairs context_text query unique_docs last_error log = (res, log ++ new)
      /\ loop_end context_text query unique_docs pairs last_error res new.
Proof.
  induction pairs as [|[llm name] rest IH]; intros last_error log.
  - exists (raise_last last_error), []. rewrite try_models_nil, app_nil_r.
    split; [done|]. by apply (loop_exhausted _ _ _ [] last_error).
  - destruct (llm prompt) as [text|e] eqn:Hllm.
    + eexists _, _. split; [by apply try_models_success|].
      by apply (loop_answered _ _ _ _ _ [] llm name rest text).
    + destruct (rate_limited e) eqn:Hrl.
      * destruct (IH (Some e) (log ++ [invoke_event prompt (llm, name)]))
          as (res & new & Hrun & Hend).
        exists res, (invoke_event prompt (llm, name) :: new).
        split.
        { rewrite (try_models_rate_limited _ _ _ _ _ e Hllm Hrl).
          rewrite <- app_assoc in Hrun. exact Hrun. }
        assert (Hhd : rate_limit_failure prompt (llm, name)) by (by exists e).
        destruct Hend as [pre l n rest' text Hp Hpre Hl
                         |pre l n rest' e' Hp Hpre Hl Hnrl
                         |Hall].
        -- apply (loop_answered _ _ _ _ _ ((llm, name) :: pre) l n rest' text);
             [by rewrite Hp | by constructor | done].
        -- apply (loop_aborted _ _ _ _ _ ((llm, name) :: pre) l n rest' e');
             [by rewrite Hp | by constructor | done | done].
        -- assert (Hle : last_error_after prompt ((llm, name) :: rest) last_error
                         = last_error_after prompt rest (Some e))
             by (unfold last_error_after; cbn [foldl fst]; by rewrite Hllm).
           fold prompt in Hall |- *. rewrite <- Hle.
           apply (loop_exhausted _ _ _ ((llm, name) :: rest) last_error). by constructor.
      * eexists _, _. split; [by apply try_models_fatal|].
        by apply (loop_aborted _ _ _ _ _ [] llm name rest e).
Qed.

End fallback.

(** ** generate_answer *)

Section generate_answer.

Import rag_service.

Lemma attempts_invoke prompt (pairs : list (LLM * string)) :
  attempts (invoke_event prompt <$> pairs)
  = (fun pair : LLM * string => (pair.2, pair.1 prompt)) <$> pairs.
Proof.
  unfold attempts. induction pairs as [|pair pairs IH]; [done|].
  rewrite !fmap_cons. cbn. f_equal. apply IH.
Qed.

Lemma attempts_after_search query k log :
  attempts (similarity_search_call query k :: log) = attempts log.
Proof. done. Qed.

(** The pairs the loop iterates over, for a service built by [__init__]. *)
Lemma init_pairs w settings :
  zip (llms (__init__ w settings)) (model_names (__init__ w settings))
  = (fun name => (ChatGoogleGenerativeAI w name, name))
      <$> (config.LLM_MODEL settings :: config.LLM_FALLBACK_MODELS settings).
Proof.
  unfold __init__. cbn [llms model_names].
  induction (config.LLM_MODEL settings :: config.LLM_FALLBACK_MODELS settings)
    as [|n l IH]; [done|]. simpl. f_equal. apply IH.
Qed.

Lemma generate_answer_search_error self w query k e :
  similarity_search w query k = Raise e ->
  run (generate_answer self w query k) = (Raise e, [similarity_search_call query k]).
Proof.
  intros H. unfold run, generate_answer, bind, vector_service.search_similar, call.
  by rewrite H.
Qed.

Lemma generate_answer_no_documents self w query k :
  similarity_search w query k = Return [] ->
  run (generate_answer self w query k)
  = (Return no_documents_answer, [similarity_search_call query k]).
Proof.
  intros H. unfold run, generate_answer, bind, vector_service.search_similar, call.
  by rewrite H.
Qed.

Lemma generate_answer_loop self w query k docs :
  similarity_search w query k = Return docs -> docs <> [] ->
  run (generate_answer self w query k)
  = try_models (zip (llms self) (model_names self))
      (_format_docs (_deduplicate docs)) query (_deduplicate docs) None
      [similarity_search_call query k].
Proof.
  intros H Hne. unfold run, generate_answer, bind, vector_service.search_similar, call.
  rewrite H. by destruct docs.
Qed.

Lemma generate_answer_end self w query k docs :
  similarity_search w query k = Return docs -> docs <> [] ->
  exists res new,
    run (generate_answer self w query k) = (res, similarity_search_call query k :: new)
    /\ loop_end (_format_docs (_deduplicate docs)) query (_deduplicate docs)
         (zip (llms self) (model_names self)) None res new.
Proof.
  intros H Hne. rewrite (generate_answer_loop _ _ _ _ docs H Hne).
  destruct (try_models_end (_format_docs (_deduplicate docs)) query (_deduplicate docs)
              (zip (llms self) (model_names self)) None [similarity_search_call query k])
    as (res & new & Hrun & Hend).
  by exists res, new.
Qed.

(** Every recorded attempt is an invocation of a configured model on the
    prompt of a non-empty retrieval. *)
Lemma attempts_sound w settings query k res log name r :
  run (generate_answer (__init__ w settings) w query k) = (res, log) ->
  (name, r) ∈ attempts log ->
  exists docs,
    similarity_search w query k = Return docs /\ docs <> []
    /\ r = ChatGoogleGenerativeAI w name (prompt_for docs query).
Proof.
  intros Hrun Hin.
  destruct (similarity_search w query k) as [docs|e] eqn:Hs.
  - destruct (decide (docs = [])) as [->|Hne].
    + rewrite (generate_answer_no_documents _ _ _ _ Hs) in Hrun.
      injection Hrun as <- <-. by apply elem_of_nil in Hin.
    + exists docs. split; [done|]. split; [done|].
      destruct (generate_answer_end (__init__ w settings) w query k docs Hs Hne)
        as (res' & new & Hrun' & Hend).
      rewrite Hrun' in Hrun. injection Hrun as <- <-.
      change (attempts (similarity_search_call query k :: new)) with (attempts new) in Hin.
      rewrite init_pairs in Hend.
      assert (Hsub : forall pairs : list (LLM * string),
                 pairs ⊆ (fun n => (ChatGoogleGenerativeAI w n, n))
                          <$> (config.LLM_MODEL settings :: config.LLM_FALLBACK_MODELS settings) ->
                 (name, r) ∈ attempts (invoke_event (prompt_for docs query) <$> pairs) ->
                 r = ChatGoogleGenerativeAI w name (prompt_for docs query)).
      { intros pairs Hsub. rewrite attempts_invoke.
        intros ([l n] & [= -> ->] & Hp%Hsub)%list_elem_of_fmap.
        apply list_elem_of_fmap in Hp as (n' & [= -> ->] & _). done. }
      destruct Hend as [pre l n rest text Hp _ _|pre l n rest e Hp _ _ _|_];
        apply Hsub in Hin; try done.
      * rewrite Hp. intros x [?|Hx%list_elem_of_singleton]%elem_of_app;
          apply elem_of_app; [by left | right; subst x; left].
      * rewrite Hp. intros x [?|Hx%list_elem_of_singleton]%elem_of_app;
          apply elem_of_app; [by left | right; subst x; left].
  - rewrite (generate_answer_search_error _ _ _ _ e Hs) in Hrun.
    injection Hrun as <- <-. by apply elem_of_nil in Hin.
Qed.

Lemma init_rate_limit_failures w prompt (names : list string) :
  Forall (model_rate_limited w prompt) names ->
  Forall (rate_limit_failure prompt)
    ((fun name => (ChatGoogleGenerativeAI w name, name)) <$> names).
Proof. intros H. apply Forall_fmap. eapply Forall_impl; [exact H|]. by intros n. Qed.

Lemma init_events w prompt (names : list string) :
  invoke_event prompt <$> ((fun name => (ChatGoogleGenerativeAI w name, name)) <$> names)
  = model_event w prompt <$> names.
Proof. by rewrite <- list_fmap_compose. Qed.

Lemma attempts_model_events w prompt (names : list string) :
  attempts (model_event w prompt <$> names)
  = (fun name => (name, ChatGoogleGenerativeAI w name prompt)) <$> names.
Proof. by rewrite <- init_events, attempts_invoke, <- list_fmap_compose. Qed.

(** The run of a service whose models up to [name] are rate-limited, by
    what [name] does. *)
Lemma init_run_skip w settings query k docs pre name rest :
  similarity_search w query k = Return docs -> docs <> [] ->
  config.LLM_MODEL settings :: config.LLM_FALLBACK_MODELS settings = pre ++ name :: rest ->
  Forall (model_rate_limited w (prompt_for docs query)) pre ->
  run (generate_answer (__init__ w settings) w query k)
  = try_models ((fun n => (ChatGoogleGenerativeAI w n, n)) <$> name :: rest)
      (_format_docs (_deduplicate docs)) query (_deduplicate docs)
      (last_error_after (prompt_for docs query)
         ((fun n => (ChatGoogleGenerativeAI w n, n)) <$> pre) None)
      (similarity_search_call query k :: (model_event w (prompt_for docs query) <$> pre)).
Proof.
  intros Hs Hne Hnames Hpre.
  rewrite (generate_answer_loop _ _ _ _ docs Hs Hne), init_pairs, Hnames, fmap_app.
  rewrite try_models_skip by (by apply init_rate_limit_failures).
  by rewrite init_events.
Qed.

Lemma init_run_answered w settings query k docs pre name rest text :
  similarity_search w query k = Return docs -> docs <> [] ->
  config.LLM_MODEL settings :: config.LLM_FALLBACK_MODELS settings = pre ++ name :: rest ->
  Forall (model_rate_limited w (prompt_for docs query)) pre ->
  ChatGoogleGenerativeAI w name (prompt_for docs query) = Return text ->
  run (generate_answer (__init__ w settings) w query k)
  = (Return {| answer := text; sources := sources_of (_deduplicate docs) |},
     similarity_search_call query k
       :: (model_event w (prompt_for docs query) <$> pre ++ [name])).
Proof.
  intros Hs Hne Hnames Hpre Hname.
  rewrite (init_run_skip _ _ _ _ docs pre name rest Hs Hne Hnames Hpre), fmap_cons.
  rewrite (try_models_success _ _ _ _ _ _ _ _ text Hname).
  by rewrite fmap_snoc.
Qed.

Lemma init_run_aborted w settings query k docs pre name rest e :
  similarity_search w query k = Return docs -> docs <> [] ->
  config.LLM_MODEL settings :: config.LLM_FALLBACK_MODELS settings = pre ++ name :: rest ->
  Forall (model_rate_limited w (prompt_for docs query)) pre ->
  ChatGoogleGenerativeAI w name (prompt_for docs query) = Raise e ->
  rate_limited e = false ->
  run (generate_answer (__init__ w settings) w query k)
  = (Raise e,
     similarity_search_call query k
       :: (model_event w (prompt_for docs query) <$> pre ++ [name])).
Proof.
  intros Hs Hne Hnames Hpre Hname Hrl.
  rewrite (init_run_skip _ _ _ _ docs pre name rest Hs Hne Hnames Hpre), fmap_cons.
  rewrite (try_models_fatal _ _ _ _ _ _ _ _ e Hname Hrl).
  by rewrite fmap_snoc.
Qed.

Lemma init_run_exhausted w settings query k docs pre name e :
  similarity_search w query k = Return docs -> docs <> [] ->
  config.LLM_MODEL settings :: config.LLM_FALLBACK_MODELS settings = pre ++ [name] ->
  Forall (model_rate_limited w (prompt_for docs query)) pre ->
  ChatGoogleGenerativeAI w name (prompt_for docs query) = Raise e ->
  rate_limited e = true ->
  run (generate_answer (__init__ w settings) w query k)
  = (Raise e,
     similarity_search_call query k
       :: (model_event w (prompt_for docs query) <$> pre ++ [name])).
Proof.
  intros Hs Hne Hnames Hpre Hname Hrl.
  rewrite (init_run_skip _ _ _ _ docs pre name [] Hs Hne Hnames Hpre), fmap_cons.
  rewrite (try_models_rate_limited _ _ _ _ _ _ _ _ e Hname Hrl), try_models_nil.
  by rewrite fmap_snoc.
Qed.

End generate_answer.

(** ** Fallback over the configured models *)

Section model_fallback.

Import rag_service.

(** [C3] For every query and [k], if the similarity search returns an empty
    list of documents, [generate_answer] returns the fixed "no relevant
    documents" answer together with an empty sources list, and no model is
    invoked: the only call made is the search itself. *)
Theorem empty_retrieval_fixed_answer self w query k :
  similarity_search w query k = Return [] ->
  run (generate_answer self w query k)
  = (Return {| answer := "I couldn't find any relevant documents to answer your question.";
               sources := [] |},
     [similarity_search_call query k])
  /\ attempts (run (generate_answer self w query k)).2 = [].
Proof.
  intros H. rewrite (generate_answer_no_documents _ _ _ _ H). by split.
Qed.

Lemma empty_retrieval_fixed_answer_witness :
  (run (generate_answer (__init__ (stub_world [] third_answers) config.settings)
          (stub_world [] third_answers) "Do you ship shoes?" 3)).1
  = Return {| answer := "I couldn't find any relevant documents to answer your question.";
              sources := [] |}.
Proof.
  pose proof (empty_retrieval_fixed_answer
                (__init__ (stub_world [] third_answers) config.settings)
                (stub_world [] third_answers) "Do you ship shoes?" 3 eq_refl) as [H _].
  by rewrite H.
Defined.

(** The run of a service configured with the models [A], [B], [C], on a
    non-empty retrieval, when [A] and [B] answer the prompt with a
    rate-limit-class error and [C] answers it with [text]. *)
Lemma fallback_reaches_third_model w settings query k docs A B C eA eB text :
  config.LLM_MODEL settings = A ->
  config.LLM_FALLBACK_MODELS settings = [B; C] ->
  similarity_search w query k = Return docs -> docs <> [] ->
  ChatGoogleGenerativeAI w A (prompt_for docs query) = Raise eA ->
  rate_limited eA = true ->
  ChatGoogleGenerativeAI w B (prompt_for docs query) = Raise eB ->
  rate_limited eB = true ->
  ChatGoogleGenerativeAI w C (prompt_for docs query) = Return text ->
  run (generate_answer (__init__ w settings) w query k)
  = (Return {| answer := text; sources := sources_of (_deduplicate docs) |},
     [similarity_search_call query k;
      ainvoke_call A (prompt_for docs query) (Raise eA);
      ainvoke_call B (prompt_for docs query) (Raise eB);
      ainvoke_call C (prompt_for docs query) (Return text)]).
Proof.
  intros HA HBC Hs Hne HeA HrlA HeB HrlB HeC.
  assert (Hnames : config.LLM_MODEL settings :: config.LLM_FALLBACK_MODELS settings
                   = [A; B] ++ C :: []) by (by rewrite HA, HBC).
  rewrite (init_run_answered w settings query k docs [A; B] C [] text Hs Hne Hnames).
  - unfold model_event. simpl. by rewrite HeA, HeB, HeC.
  - repeat constructor; [by exists eA | by exists eB].
  - done.
Qed.

(** [C1] For every configured model list [A, B, C] (primary followed by
    fallbacks in order), if invoking [A] and [B] each fails with a
    rate-limit-class error and invoking [C] succeeds, then [generate_answer]
    returns [C]'s generated text as the answer (with the sources of the
    deduplicated retrieval), and exactly the models [A], [B], [C] were
    attempted, in that order, each once.  "Invoking [A] fails" is an event
    of the run: the log records an invocation of [A] that raised.  How the
    run gets there from what the three models do is
    [fallback_reaches_third_model]. *)
Theorem third_model_answers_after_rate_limits
    w settings query k A B C eA eB text res log :
  config.LLM_MODEL settings = A ->
  config.LLM_FALLBACK_MODELS settings = [B; C] ->
  run (generate_answer (__init__ w settings) w query k) = (res, log) ->
  (A, Raise eA) ∈ attempts log -> rate_limited eA = true ->
  (B, Raise eB) ∈ attempts log -> rate_limited eB = true ->
  (C, Return text) ∈ attempts log ->
  (exists docs,
      similarity_search w query k = Return docs
      /\ res = Return {| answer := text; sources := sources_of (_deduplicate docs) |})
  /\ attempts log = [(A, Raise eA); (B, Raise eB); (C, Return text)].
Proof.
  intros HA HBC Hrun HinA HrlA HinB HrlB HinC.
  destruct (attempts_sound _ _ _ _ _ _ _ _ Hrun HinA) as (docs & Hs & Hne & HeA).
  destruct (attempts_sound _ _ _ _ _ _ _ _ Hrun HinB) as (docs' & Hs' & _ & HeB).
  destruct (attempts_sound _ _ _ _ _ _ _ _ Hrun HinC) as (docs'' & Hs'' & _ & HeC).
  rewrite Hs in Hs', Hs''. injection Hs' as <-. injection Hs'' as <-.
  rewrite (fallback_reaches_third_model w settings query k docs A B C eA eB text)
    in Hrun by done.
  injection Hrun as <- <-. split; [by exists docs | done].
Qed.

Lemma third_model_answers_after_rate_limits_witness :
  attempts (run (generate_answer
                   (__init__ (stub_world [shoes_doc] third_answers) config.settings)
                   (stub_world [shoes_doc] third_answers) "Do you ship shoes?" 3)).2
  = [("gemini-2.0-flash", Raise (mkException "429 Too Many Requests"));
     ("gemini-2.0-flash-lite", Raise (mkException "RESOURCE_EXHAUSTED: quota exceeded"));
     ("gemini-2.5-flash", Return "Two days.")].
Proof.
  refine (proj2 (third_model_answers_after_rate_limits
                   (stub_world [shoes_doc] third_answers) config.settings
                   "Do you ship shoes?" 3
                   "gemini-2.0-flash" "gemini-2.0-flash-lite" "gemini-2.5-flash"
                   (mkException "429 Too Many Requests")
                   (mkException "RESOURCE_EXHAUSTED: quota exceeded")
                   "Two days." _ _
                   eq_refl eq_refl (surjective_pairing _) _ eq_refl _ eq_refl _)).
  - vm_compute. apply list_elem_of_here.
  - vm_compute. apply list_elem_of_further, list_elem_of_here.
  - vm_compute. do 2 apply list_elem_of_further. apply list_elem_of_here.
Defined.

(** An attempt that failed on a rate limit is not the attempt of an error
    outside that class. *)
Lemma rate_limit_failure_not_fatal prompt (pair : LLM * string) name e :
  rate_limit_failure prompt pair ->
  (name, Raise e) = (pair.2, pair.1 prompt) ->
  rate_limited e = true.
Proof. intros (e' & He' & Hrl) [= -> He]. rewrite He' in He. by injection He as ->. Qed.

(** [C2] For every query with non-empty retrieval, if invoking a model
    fails with an error that is not rate-limit-class (its text contains
    neither RESOURCE_EXHAUSTED nor 429), then [generate_answer] raises that
    error, and that invocation is the last one: the configured list splits
    into the models attempted before, the failing model, and the models
    after it, none of which is attempted. *)
Theorem other_error_aborts_fallback w settings query k docs res log name e :
  similarity_search w query k = Return docs -> docs <> [] ->
  run (generate_answer (__init__ w settings) w query k) = (res, log) ->
  (name, Raise e) ∈ attempts log ->
  pystr.contains "RESOURCE_EXHAUSTED" (str e) = false ->
  pystr.contains "429" (str e) = false ->
  res = Raise e
  /\ exists earlier later,
       attempts log = earlier ++ [(name, Raise e)]
       /\ config.LLM_MODEL settings :: config.LLM_FALLBACK_MODELS settings
          = earlier.*1 ++ name :: later.
Proof.
  intros Hs Hne Hrun Hin Hquota H429.
  assert (Hrl : rate_limited e = false) by (unfold rate_limited; by rewrite Hquota, H429).
  destruct (generate_answer_end (__init__ w settings) w query k docs Hs Hne)
    as (res' & new & Hrun' & Hend).
  rewrite Hrun' in Hrun. injection Hrun as <- <-.
  rewrite attempts_after_search in *. rewrite init_pairs in Hend.
  set (prompt := SYSTEM_PROMPT (_format_docs (_deduplicate docs)) query) in *.
  assert (Hpre : forall pre, Forall (rate_limit_failure prompt) pre ->
            (name, Raise e) ∉ attempts (invoke_event prompt <$> pre)).
  { intros pre Hpre. rewrite attempts_invoke.
    intros (pair & Heq & Hpair)%list_elem_of_fmap.
    rewrite Forall_forall in Hpre.
    pose proof (rate_limit_failure_not_fatal _ _ _ _ (Hpre _ Hpair) Heq). congruence. }
  destruct Hend as [pre l n rest text Hp Hfail Hl
                   |pre l n rest e' Hp Hfail Hl Hnrl
                   |Hall].
  - exfalso. rewrite fmap_snoc in Hin. unfold attempts in Hin.
    rewrite omap_app in Hin. apply elem_of_app in Hin as [Hin|Hin].
    + by apply (Hpre pre Hfail).
    + simpl in Hin. apply list_elem_of_singleton in Hin. rewrite Hl in Hin. done.
  - rewrite fmap_snoc in Hin |- *. unfold attempts in Hin |- *.
    rewrite omap_app in Hin |- *. apply elem_of_app in Hin as [Hin|Hin].
    + exfalso. by apply (Hpre pre Hfail).
    + simpl in Hin |- *. apply list_elem_of_singleton in Hin. rewrite Hl in Hin |- *.
      injection Hin as -> ->. split; [done|].
      eexists _, rest.*2. split; [done|].
      apply (f_equal (fmap snd)) in Hp.
      rewrite <- list_fmap_compose, fmap_app, fmap_cons in Hp. simpl in Hp.
      rewrite list_fmap_id in Hp. rewrite Hp. f_equal.
      fold (attempts (invoke_event prompt <$> pre)). rewrite attempts_invoke.
      by rewrite <- list_fmap_compose.
  - exfalso. by apply (Hpre _ Hall).
Qed.

Lemma other_error_aborts_fallback_witness :
  (run (generate_answer
          (__init__ (stub_world [shoes_doc] second_breaks) config.settings)
          (stub_world [shoes_doc] second_breaks) "Do you ship shoes?" 3)).1
  = Raise (mkException "API key not valid").
Proof.
  refine (proj1 (other_error_aborts_fallback
                   (stub_world [shoes_doc] second_breaks) config.settings
                   "Do you ship shoes?" 3 [shoes_doc] _ _
                   "gemini-2.0-flash-lite" (mkException "API key not valid")
                   eq_refl _ (surjective_pairing _) _ eq_refl eq_refl)).
  - discriminate.
  - vm_compute. apply list_elem_of_further, list_elem_of_here.
Defined.

(** [C4] For every query with non-empty retrieval, if every model in the
    configured list (primary plus fallbacks) fails with a rate-limit-class
    error, then [generate_answer] raises the error produced by the last
    model of the list, after having attempted every model once, in order. *)
Theorem exhausted_models_raise_last_error w settings query k docs :
  similarity_search w query k = Return docs -> docs <> [] ->
  (forall name,
      name ∈ config.LLM_MODEL settings :: config.LLM_FALLBACK_MODELS settings ->
      exists e, ChatGoogleGenerativeAI w name (prompt_for docs query) = Raise e
                /\ rate_limited e = true) ->
  exists last_model e_last,
    last (config.LLM_MODEL settings :: config.LLM_FALLBACK_MODELS settings)
      = Some last_model
    /\ ChatGoogleGenerativeAI w last_model (prompt_for docs query) = Raise e_last
    /\ (run (generate_answer (__init__ w settings) w query k)).1 = Raise e_last
    /\ (attempts (run (generate_answer (__init__ w settings) w query k)).2).*1
       = config.LLM_MODEL settings :: config.LLM_FALLBACK_MODELS settings.
Proof.
  intros Hs Hne Hall.
  destruct (exists_last (l := config.LLM_MODEL settings :: config.LLM_FALLBACK_MODELS settings))
    as (pre & last_model & Hnames); [done|].
  rewrite Hnames in Hall |- *.
  destruct (Hall last_model) as (e_last & Hlast & Hrl);
    [apply elem_of_app; right; left|].
  exists last_model, e_last. rewrite last_snoc. split; [done|]. split; [done|].
  rewrite (init_run_exhausted w settings query k docs pre last_model e_last Hs Hne Hnames);
    [|apply Forall_forall; intros n Hn; apply Hall, elem_of_app; by left|done|done].
  split; [done|]. cbn [snd].
  rewrite attempts_after_search, attempts_model_events, <- list_fmap_compose.
  apply list_fmap_id.
Qed.

Lemma exhausted_models_raise_last_error_witness :
  exists last_model e_last,
    last (config.LLM_MODEL config.settings :: config.LLM_FALLBACK_MODELS config.settings)
      = Some last_model
    /\ ChatGoogleGenerativeAI (stub_world [shoes_doc] all_out_of_quota) last_model
         (prompt_for [shoes_doc] "Do you ship shoes?") = Raise e_last
    /\ (run (generate_answer
               (__init__ (stub_world [shoes_doc] all_out_of_quota) config.settings)
               (stub_world [shoes_doc] all_out_of_quota) "Do you ship shoes?" 3)).1
       = Raise e_last
    /\ (attempts (run (generate_answer
               (__init__ (stub_world [shoes_doc] all_out_of_quota) config.settings)
               (stub_world [shoes_doc] all_out_of_quota) "Do you ship shoes?" 3)).2).*1
       = config.LLM_MODEL config.settings :: config.LLM_FALLBACK_MODELS config.settings.
Proof.
  apply (exhausted_models_raise_last_error
           (stub_world [shoes_doc] all_out_of_quota) config.settings
           "Do you ship shoes?" 3 [shoes_doc] eq_refl).
  - discriminate.
  - intros name _. simpl. unfold all_out_of_quota.
    destruct (decide (name = "gemini-2.5-flash")); eexists; split; reflexivity.
Defined.

End model_fallback.

(** ** The sources of an answer *)

Section sources.

Import rag_service.

Lemma slice_to_length n : forall s,
  String.length (pystr.slice_to n s) = Nat.min n (String.length s).
Proof.
  induction n as [|n IH]; intros [|c s]; simpl; try done. by rewrite IH.
Qed.

Lemma slice_to_prefix n : forall s, String.prefix (pystr.slice_to n s) s = true.
Proof.
  induction n as [|n IH]; intros [|c s]; simpl; try done.
  destruct (Ascii.ascii_dec c c); [apply IH | done].
Qed.

(** A returned answer carries the sources of the deduplicated retrieval. *)
Lemma answer_sources self w query k docs ans log :
  similarity_search w query k = Return docs ->
  run (generate_answer self w query k) = (Return ans, log) ->
  sources ans = sources_of (_deduplicate docs).
Proof.
  intros Hs Hrun. destruct (decide (docs = [])) as [->|Hne].
  - rewrite (generate_answer_no_documents _ _ _ _ Hs) in Hrun. by injection Hrun as <- <-.
  - destruct (generate_answer_end self w query k docs Hs Hne)
      as (res & new & Hrun' & Hend).
    rewrite Hrun' in Hrun. injection Hrun as -> <-.
    inversion Hend as [pre l n rest text Hp Hfail Hl Hres|
                       |Hall Hres]; [done|].
    unfold raise_last in Hres. by destruct (last_error_after _ _ _).
Qed.

(** [C8] For every successful generation, the returned sources list has
    exactly one entry per surviving deduplicated chunk, in the order of the
    deduplicated chunks; the entry of a chunk consists of its source
    filename (or "unknown" when the metadata has no source) and of a
    preview followed by the ellipsis marker "...", the preview being the
    first 200 characters of the chunk text (the whole text when it is
    shorter), hence at most 200 characters. *)
Theorem sources_one_entry_per_chunk self w query k docs ans log :
  similarity_search w query k = Return docs ->
  run (generate_answer self w query k) = (Return ans, log) ->
  length (sources ans) = length (_deduplicate docs)
  /\ forall i doc,
       _deduplicate docs !! i = Some doc ->
       exists entry preview,
         sources ans !! i = Some entry
         /\ source entry = match metadata doc !! "source" with
                           | Some file => file
                           | None => "unknown"
                           end
         /\ content entry = preview +:+ "..."
         /\ String.prefix preview (page_content doc) = true
         /\ String.length preview = Nat.min 200 (String.length (page_content doc))
         /\ (String.length preview <= 200)%nat.
Proof.
  intros Hs Hrun. rewrite (answer_sources _ _ _ _ _ _ _ Hs Hrun).
  unfold sources_of. split; [apply length_fmap|].
  intros i doc Hdoc.
  exists {| source := source_of doc;
            content := pystr.slice_to 200 (page_content doc) +:+ "..." |},
         (pystr.slice_to 200 (page_content doc)).
  split; [by rewrite list_lookup_fmap, Hdoc|].
  split; [unfold source_of; cbn [source]; by destruct (metadata doc !! "source")|].
  split; [done|]. split; [apply slice_to_prefix|].
  rewrite slice_to_length. split; [done | lia].
Qed.

Lemma sources_one_entry_per_chunk_witness :
  length (sources {| answer := "Two days.";
                     sources := sources_of (_deduplicate [returns_a; returns_b; sizes_b]) |})
  = length (_deduplicate [returns_a; returns_b; sizes_b]).
Proof.
  exact (proj1 (sources_one_entry_per_chunk
                  (__init__ (stub_world [returns_a; returns_b; sizes_b] all_answer)
                     config.settings)
                  (stub_world [returns_a; returns_b; sizes_b] all_answer)
                  "Are returns free?" 3 [returns_a; returns_b; sizes_b] _ _
                  eq_refl eq_refl)).
Defined.

(** A chunk whose text has been seen, or occurs earlier in the list, is
    dropped: the loop appends the same documents with or without it. *)
Lemma keep_without_later_duplicate (l1 : list Document) :
  forall seen d2 l3,
    page_content d2 ∈ seen \/ page_content d2 ∈ page_content <$> l1 ->
    keep seen (l1 ++ d2 :: l3) = keep seen (l1 ++ l3).
Proof.
  induction l1 as [|x l1 IH]; intros seen d2 l3 Hdup; simpl.
  - destruct Hdup as [Hs|Hnil%elem_of_nil]; [|done]. by rewrite decide_True.
  - rewrite fmap_cons, elem_of_cons in Hdup.
    destruct (decide (page_content x ∈ seen)) as [Hx|Hx].
    + apply IH. destruct Hdup as [?|[Heq|?]]; [by left | left; by rewrite Heq | by right].
    + f_equal. apply IH. rewrite elem_of_union, elem_of_singleton. tauto.
Qed.

Lemma deduplicate_without_later_duplicate before d1 between d2 after :
  page_content d1 = page_content d2 ->
  _deduplicate (before ++ d1 :: between ++ d2 :: after)
  = _deduplicate (before ++ d1 :: between ++ after).
Proof.
  intros Heq. rewrite !deduplicate_keep.
  replace (before ++ d1 :: between ++ d2 :: after)
    with ((before ++ d1 :: between) ++ d2 :: after) by (by rewrite <- app_assoc).
  replace (before ++ d1 :: between ++ after)
    with ((before ++ d1 :: between) ++ after) by (by rewrite <- app_assoc).
  apply keep_without_later_duplicate. right.
  rewrite fmap_app, fmap_cons, elem_of_app, elem_of_cons. right. left. by symmetry.
Qed.

Lemma deduplicate_elem_of docs d : d ∈ _deduplicate docs -> d ∈ docs.
Proof.
  rewrite deduplicate_keep. intros Hd.
  eapply elem_of_sublist; [exact Hd | apply keep_sublist].
Qed.

(** As stated, [C10] fails: with the retrieval [returns_a; returns_b;
    sizes_b], the second chunk repeats the text of the first under another
    filename, and is dropped; yet its filename "b.pdf" appears in the
    sources of the answer, because the third chunk, of the same file,
    survives. *)
Lemma later_duplicate_filename_still_listed :
  let docs := [returns_a; returns_b; sizes_b] in
  let w := stub_world docs all_answer in
  similarity_search w "Are returns free?" 3 = Return docs
  /\ docs !! 0%nat = Some returns_a /\ docs !! 1%nat = Some returns_b
  /\ page_content returns_a = page_content returns_b
  /\ source_of returns_a <> source_of returns_b
  /\ exists ans,
       (run (generate_answer (__init__ w config.settings) w "Are returns free?" 3)).1
       = Return ans
       /\ source_of returns_b ∈ source <$> sources ans.
Proof.
  cbv zeta. split; [reflexivity|]. split; [reflexivity|]. split; [reflexivity|].
  split; [reflexivity|]. split; [by vm_compute|].
  exists {| answer := "Two days.";
            sources := sources_of (_deduplicate [returns_a; returns_b; sizes_b]) |}.
  split; [reflexivity|].
  vm_compute. apply list_elem_of_further, list_elem_of_here.
Qed.

(** [C10] (amended) Deduplication compares only chunk text and ignores
    metadata: for every pair of retrieved chunks with identical text,
    whatever their metadata, the later chunk is dropped.  The sources of the
    answer are those of the retrieval without the later chunk, each entry
    carries the filename of a retrieved chunk other than the later one, and
    so the later chunk's filename is absent from the sources whenever no
    other retrieved chunk carries it. *)
Theorem later_duplicate_contributes_no_source
    self w query k before d1 between d2 after ans log :
  similarity_search w query k = Return (before ++ d1 :: between ++ d2 :: after) ->
  page_content d1 = page_content d2 ->
  run (generate_answer self w query k) = (Return ans, log) ->
  sources ans = sources_of (_deduplicate (before ++ d1 :: between ++ after))
  /\ (forall entry, entry ∈ sources ans ->
        exists d, d ∈ before ++ d1 :: between ++ after /\ source entry = source_of d)
  /\ ((forall d, d ∈ before ++ d1 :: between ++ after -> source_of d <> source_of d2) ->
      source_of d2 ∉ source <$> sources ans).
Proof.
  intros Hs Heq Hrun.
  rewrite (answer_sources _ _ _ _ _ _ _ Hs Hrun).
  rewrite (deduplicate_without_later_duplicate _ _ _ _ _ Heq).
  assert (Hentry : forall entry,
             entry ∈ sources_of (_deduplicate (before ++ d1 :: between ++ after)) ->
             exists d, d ∈ before ++ d1 :: between ++ after /\ source entry = source_of d).
  { intros entry (d & -> & Hd)%list_elem_of_fmap.
    exists d. split; [by apply deduplicate_elem_of | done]. }
  split; [done|]. split; [done|].
  intros Hother (entry & Hsrc & Hin)%list_elem_of_fmap.
  destruct (Hentry entry Hin) as (d & Hd & Hsd).
  apply (Hother d Hd). congruence.
Qed.

Lemma later_duplicate_contributes_no_source_witness :
  sources {| answer := "Two days.";
             sources := sources_of (_deduplicate [returns_a; returns_b]) |}
  = sources_of (_deduplicate ([] ++ returns_a :: [] ++ [])).
Proof.
  exact (proj1 (later_duplicate_contributes_no_source
                  (__init__ (stub_world [returns_a; returns_b] all_answer) config.settings)
                  (stub_world [returns_a; returns_b] all_answer)
                  "Are returns free?" 3 [] returns_a [] returns_b [] _ _
                  eq_refl eq_refl eq_refl)).
Defined.

End sources.

(** ** Document processing *)

Section document_processing.

Import document_service.

(** A PDF with text that is not all whitespace: the chunks are those of the
    splitter, configured with chunk size 1000, overlap 200 and the four
    separators, on the concatenated page texts. *)
Lemma process_file_chunks w file pages text_content :
  content_type file = Some "application/pdf" ->
  PdfReader w (document_service.file file) = Return pages ->
  extract_pages pages EmptyString = Return text_content ->
  pystr.strip text_content <> EmptyString ->
  run (process_file __init__ w file)
  = (Return (split_text w 1000 200
               [pystr.newline +:+ pystr.newline; pystr.newline; " "; EmptyString]
               text_content), []).
Proof.
  intros Hct Hpdf Hpages Hstrip.
  unfold run, process_file. rewrite decide_False by (by rewrite Hct; intros []).
  unfold bind, try_except, read_text, bind, map_error, try_except, lift.
  rewrite Hpdf, Hpages.
  by destruct (pystr.strip text_content).
Qed.

(** A PDF whose pages carry whitespace only is answered with status 422. *)
Lemma process_file_blank_text w file pages text_content :
  content_type file = Some "application/pdf" ->
  PdfReader w (document_service.file file) = Return pages ->
  extract_pages pages EmptyString = Return text_content ->
  pystr.strip text_content = EmptyString ->
  run (process_file __init__ w file)
  = (Raise {| status_code := 422;
              detail := "PDF contains no extractable text (may be scanned/image-based)." |},
     []).
Proof.
  intros Hct Hpdf Hpages Hstrip.
  unfold run, process_file. rewrite decide_False by (by rewrite Hct; intros []).
  unfold bind, try_except, read_text, bind, map_error, try_except, lift.
  by rewrite Hpdf, Hpages, Hstrip.
Qed.

Example blank_page_is_unprocessable :
  (run (process_file __init__ (one_page_world " ") blank_pdf)).1
  = Raise {| status_code := 422;
             detail := "PDF contains no extractable text (may be scanned/image-based)." |}.
Proof. reflexivity. Qed.

End document_processing.

(** ** The HTTP layer *)

Section http.

Import endpoints.

(** [C6] For every uploaded file whose content type is not application/pdf,
    the upload fails with an [HTTPException] of status 400, and the request
    makes no external call at all: in particular nothing is added to the
    vector store. *)
Theorem non_pdf_upload_rejected w (file : document_service.UploadFile) :
  document_service.content_type file <> Some "application/pdf" ->
  post_upload w file
  = Handled (Raise {| status_code := 400; detail := "Only PDF files are supported." |}) []
  /\ stored (run (upload_document w file)).2 = [].
Proof.
  intros Hct.
  assert (Hrun : run (upload_document w file)
                 = (Raise {| status_code := 400;
                             detail := "Only PDF files are supported." |}, [])).
  { unfold run, upload_document, try_except, bind, map_error, try_except,
      document_service.process_file.
    by rewrite decide_True. }
  unfold post_upload. rewrite Hrun. by split.
Qed.

Lemma non_pdf_upload_rejected_witness :
  post_upload (stub_world [] all_answer) notes_txt
  = Handled (Raise {| status_code := 400; detail := "Only PDF files are supported." |}) [].
Proof.
  refine (proj1 (non_pdf_upload_rejected (stub_world [] all_answer) notes_txt _)).
  discriminate.
Defined.

Lemma generate_answer_searches_first self w query k :
  exists res new,
    run (rag_service.generate_answer self w query k)
    = (res, similarity_search_call query k :: new).
Proof.
  destruct (similarity_search w query k) as [docs|e] eqn:Hs.
  - destruct (decide (docs = [])) as [->|Hne].
    + eexists _, _. by apply generate_answer_no_documents.
    + destruct (generate_answer_end self w query k docs Hs Hne) as (res & new & Hrun & _).
      by exists res, new.
  - eexists _, _. by apply generate_answer_search_error.
Qed.

Lemma chat_with_docs_searches_first rag w (request : schemas.ChatRequest) :
  exists r new,
    run (chat_with_docs rag w request)
    = (r, similarity_search_call (schemas.query request) (schemas.k request) :: new).
Proof.
  destruct (generate_answer_searches_first rag w (schemas.query request) (schemas.k request))
    as (res & new & Hrun).
  unfold run in *. unfold chat_with_docs, try_except, bind. rewrite Hrun.
  destruct res; eexists _, _; reflexivity.
Qed.

Lemma search_documents_run w query k :
  exists r, run (search_documents w query k) = (r, [similarity_search_call query k]).
Proof.
  unfold run, search_documents, try_except, bind, vector_service.search_similar, call.
  destruct (similarity_search w query k); eexists; reflexivity.
Qed.

(** As stated, [C7] fails on [/search]: a search request with [k = 50] is
    not rejected; the store is searched with [k = 50] and the result is
    returned. *)
Lemma search_accepts_k_out_of_range :
  ~ (1 <= 50 <= 10)
  /\ post_search (stub_world [shoes_doc] all_answer) (Some "shoes") (Some 50)
     = Handled (Return {| query := "shoes"; results := [page_content shoes_doc] |})
         [similarity_search_call "shoes" 50].
Proof. split; [lia | reflexivity]. Qed.

(** [C7] (amended) For every chat request, the result count [k] is bounded
    to 1..10 with default 3: with [k] the given count, or 3 when the request
    omits it, the request is processed with that [k] (the store is searched
    with it) when [1 <= k <= 10], and is rejected by validation, without
    any processing, otherwise.  For every search request, [k] defaults to 3
    as well, and the store is searched with the [k] so obtained, whatever
    its value: the search endpoint declares no bound. *)
Theorem result_count_default_and_bounds rag w (q : string) (given : option Z) :
  (1 <= String.length q)%nat ->
  let k := match given with Some k => k | None => 3 end in
  let body := {| schemas.body_query := Some q; schemas.body_k := given |} in
  (1 <= k <= 10 ->
     exists r new, post_chat rag w body = Handled r (similarity_search_call q k :: new))
  /\ (~ (1 <= k <= 10) -> post_chat rag w body = RequestValidationError)
  /\ exists r, post_search w (Some q) given = Handled r [similarity_search_call q k].
Proof.
  intros Hq k body.
  assert (Hk : default 3 given = k) by (by destruct given).
  split; [|split].
  - intros Hin. unfold post_chat, schemas.validate. cbn [schemas.body_query schemas.body_k body].
    rewrite Hk. destruct (Nat.leb_spec 1 (String.length q)) as [_|?]; [|lia].
    destruct (Z.leb_spec 1 k) as [_|?]; [|lia].
    destruct (Z.leb_spec k 10) as [_|?]; [|lia]. cbn [andb].
    destruct (chat_with_docs_searches_first rag w {| schemas.query := q; schemas.k := k |})
      as (r & new & Hrun).
    rewrite Hrun. by exists r, new.
  - intros Hout. unfold post_chat, schemas.validate. cbn [schemas.body_query schemas.body_k body].
    rewrite Hk. destruct (Nat.leb_spec 1 (String.length q)) as [_|?]; [|lia].
    destruct (Z.leb_spec 1 k), (Z.leb_spec k 10); cbn [andb]; (done || lia).
  - unfold post_search. rewrite Hk.
    destruct (search_documents_run w q k) as (r & Hrun). rewrite Hrun. by exists r.
Qed.

Lemma result_count_default_and_bounds_witness :
  (exists r new,
      post_chat (rag_service.__init__ (stub_world [shoes_doc] all_answer) config.settings)
        (stub_world [shoes_doc] all_answer)
        {| schemas.body_query := Some "shoes"; schemas.body_k := None |}
      = Handled r (similarity_search_call "shoes" 3 :: new))
  /\ post_chat (rag_service.__init__ (stub_world [shoes_doc] all_answer) config.settings)
       (stub_world [shoes_doc] all_answer)
       {| schemas.body_query := Some "shoes"; schemas.body_k := Some 11 |}
     = RequestValidationError
  /\ exists r,
       post_search (stub_world [shoes_doc] all_answer) (Some "shoes") None
       = Handled r [similarity_search_call "shoes" 3].
Proof.
  pose proof (result_count_default_and_bounds
                (rag_service.__init__ (stub_world [shoes_doc] all_answer) config.settings)
                (stub_world [shoes_doc] all_answer) "shoes" None) as Hdefault.
  pose proof (result_count_default_and_bounds
                (rag_service.__init__ (stub_world [shoes_doc] all_answer) config.settings)
                (stub_world [shoes_doc] all_answer) "shoes" (Some 11)) as Hout.
  cbv zeta in Hdefault, Hout.
  destruct Hdefault as (Hchat & _ & Hsearch); [simpl; lia|].
  destruct Hout as (_ & Hreject & _); [simpl; lia|].
  split; [apply Hchat; lia|]. split; [apply Hreject; lia | exact Hsearch].
Defined.

End http.

(** * Further properties of the services *)

(** ** More on strings *)

Section more_strings.

Lemma append_assoc (a b c : string) : (a +:+ b) +:+ c = a +:+ b +:+ c.
Proof. induction a as [|x a IH]; [done|]. by rewrite !append_cons, IH. Qed.

Lemma append_nil_r (a : string) : a +:+ EmptyString = a.
Proof. induction a as [|x a IH]; [done|]. by rewrite append_cons, IH. Qed.

Lemma length_append (a b : string) :
  String.length (a +:+ b) = (String.length a + String.length b)%nat.
Proof. induction a as [|x a IH]; [done|]. rewrite append_cons. simpl. by rewrite IH. Qed.




Lemma lstrip_all_isspace (s : string) :
  all_isspace s = true -> pystr.lstrip s = EmptyString.
Proof.
  induction s as [|c s IH]; [done|]. simpl.
  intros [Hc Hs]%andb_true_iff. rewrite Hc. by apply IH.
Qed.

Lemma strip_all_isspace (s : string) :
  all_isspace s = true -> pystr.strip s = EmptyString.
Proof. intros H. unfold pystr.strip. by rewrite (lstrip_all_isspace s H). Qed.

Lemma all_isspace_append (a b : string) :
  all_isspace (a +:+ b) = all_isspace a && all_isspace b.
Proof.
  induction a as [|x a IH]; [done|]. rewrite append_cons. simpl.
  by rewrite IH, andb_assoc.
Qed.

Lemma slice_to_short n : forall s, (String.length s <= n)%nat -> pystr.slice_to n s = s.
Proof.
  induction n as [|n IH]; intros [|c s]; simpl; try done; [lia|].
  intros H. f_equal. apply IH. lia.
Qed.

End more_strings.

(** ** More on deduplication and the prompt *)

Section more_deduplicate.

Import rag_service.

(** [X1] Deduplication returns its input unchanged exactly when the texts
    of the input are pairwise distinct. *)
Theorem deduplicate_unchanged_iff_distinct (docs : list Document) :
  _deduplicate docs = docs <-> NoDup (page_content <$> docs).
Proof.
  rewrite deduplicate_keep. split.
  - intros Heq. rewrite <- Heq. apply keep_NoDup.
  - intros Hnd. apply keep_fixed; [done|]. intros d _. apply not_elem_of_empty.
Qed.

Lemma keep_filter (docs : list Document) :
  forall seen t,
    keep ({[t]} ∪ seen) docs
    = keep seen (filter (fun x => page_content x <> t) docs).
Proof.
  induction docs as [|x docs IH]; intros seen t; [done|].
  rewrite filter_cons. simpl.
  destruct (decide (page_content x <> t)) as [Hne|Heq].
  - simpl. destruct (decide (page_content x ∈ seen)) as [Hin|Hnin].
    + rewrite decide_True by (apply elem_of_union; by right). apply IH.
    + rewrite decide_False
        by (rewrite elem_of_union, elem_of_singleton; intros [?|?]; done).
      f_equal. rewrite <- IH. f_equal.
      apply set_eq. intros y. rewrite !elem_of_union, !elem_of_singleton. tauto.
  - apply dec_stable in Heq.
    rewrite decide_True by (apply elem_of_union; left; by apply elem_of_singleton).
    apply IH.
Qed.

(** [X2] The first retrieved chunk always survives, first; what follows it
    is the deduplication of the other chunks without those that repeat its
    text. *)
Theorem deduplicate_head (d : Document) (rest : list Document) :
  _deduplicate (d :: rest)
  = d :: _deduplicate (filter (fun x => page_content x <> page_content d) rest).
Proof.
  rewrite !deduplicate_keep. simpl.
  rewrite decide_False by apply not_elem_of_empty.
  f_equal. apply keep_filter.
Qed.




(** [X4] The context of two non-empty groups of chunks is the context of
    the first, a blank line, and the context of the second. *)
Theorem format_docs_app (docs1 docs2 : list Document) :
  docs1 <> [] -> docs2 <> [] ->
  _format_docs (docs1 ++ docs2)
  = _format_docs docs1 +:+ pystr.newline +:+ pystr.newline +:+ _format_docs docs2.
Proof.
  intros H1 H2. unfold _format_docs.
  induction docs1 as [|d docs1 IH]; [done|].
  destruct docs1 as [|d' docs1].
  - destruct docs2 as [|e docs2]; [done|]. simpl. by rewrite append_assoc.
  - change (pystr.join (pystr.newline +:+ pystr.newline)
              (map page_content ((d :: d' :: docs1) ++ docs2)))
      with (page_content d +:+ (pystr.newline +:+ pystr.newline)
            +:+ pystr.join (pystr.newline +:+ pystr.newline)
                  (map page_content ((d' :: docs1) ++ docs2))).
    rewrite IH by done.
    change (pystr.join (pystr.newline +:+ pystr.newline)
              (map page_content (d :: d' :: docs1)))
      with (page_content d +:+ (pystr.newline +:+ pystr.newline)
            +:+ pystr.join (pystr.newline +:+ pystr.newline)
                  (map page_content (d' :: docs1))).
    by rewrite !append_assoc.
Qed.

Lemma format_docs_app_witness :
  _format_docs ([returns_a] ++ [sizes_b])
  = _format_docs [returns_a] +:+ pystr.newline +:+ pystr.newline
    +:+ _format_docs [sizes_b].
Proof. apply (format_docs_app [returns_a] [sizes_b]); discriminate. Defined.

End more_deduplicate.

(** ** More on generate_answer *)

Section more_generate_answer.

Import rag_service.

Lemma stored_model_events w prompt (names : list string) :
  stored (model_event w prompt <$> names) = [].
Proof.
  unfold stored. induction names as [|n names IH]; [done|].
  rewrite fmap_cons. cbn. apply IH.
Qed.

(** In a non-empty list of models there is a first one that does not answer
    with a rate-limit-class error, or else every model does and the last one
    is singled out. *)
Lemma first_decisive_model w prompt (names : list string) :
  names <> [] ->
  exists earlier name later,
    names = earlier ++ name :: later
    /\ Forall (model_rate_limited w prompt) earlier
    /\ (model_rate_limited w prompt name -> later = []).
Proof.
  induction names as [|n names IH]; [done|]. intros _.
  destruct (ChatGoogleGenerativeAI w n prompt) as [text|e] eqn:Hn.
  - exists [], n, names. split; [done|]. split; [constructor|].
    intros (e & He & _). congruence.
  - destruct (rate_limited e) eqn:Hrl.
    + destruct names as [|n' names].
      * by exists [], n, [].
      * destruct IH as (earlier & name & later & Hnames & Hearlier & Hlast); [done|].
        exists (n :: earlier), name, later. rewrite Hnames.
        split; [done|]. split; [|done]. constructor; [by exists e | done].
    + exists [], n, names. split; [done|]. split; [constructor|].
      intros (e' & He' & Hrl'). congruence.
Qed.

(** The run of a service built by [__init__] on a non-empty retrieval: the
    models are tried in order up to the first that answers or fails outside
    the rate-limit class, or up to the last one. *)
Lemma init_run_shape w settings query k docs :
  similarity_search w query k = Return docs -> docs <> [] ->
  exists earlier name later,
    config.LLM_MODEL settings :: config.LLM_FALLBACK_MODELS settings
      = earlier ++ name :: later
    /\ Forall (model_rate_limited w (prompt_for docs query)) earlier
    /\ run (generate_answer (__init__ w settings) w query k)
       = (match ChatGoogleGenerativeAI w name (prompt_for docs query) with
          | Return text =>
              Return {| answer := text; sources := sources_of (_deduplicate docs) |}
          | Raise e => Raise e
          end,
          similarity_search_call query k
            :: (model_event w (prompt_for docs query) <$> earlier ++ [name])).
Proof.
  intros Hs Hne.
  destruct (first_decisive_model w (prompt_for docs query)
              (config.LLM_MODEL settings :: config.LLM_FALLBACK_MODELS settings))
    as (earlier & name & later & Hnames & Hearlier & Hlast); [done|].
  exists earlier, name, later. split; [done|]. split; [done|].
  destruct (ChatGoogleGenerativeAI w name (prompt_for docs query)) as [text|e] eqn:Hn.
  - by apply (init_run_answered w settings query k docs earlier name later).
  - destruct (rate_limited e) eqn:Hrl.
    + assert (later = []) as -> by (apply Hlast; by exists e).
      by apply (init_run_exhausted w settings query k docs earlier name).
    + by apply (init_run_aborted w settings query k docs earlier name later).
Qed.

Lemma attempted_names w prompt (tried : list string) :
  ((fun name => (name, ChatGoogleGenerativeAI w name prompt)) <$> tried).*1 = tried.
Proof. induction tried as [|n tried IH]; [done|]. rewrite !fmap_cons. by rewrite IH. Qed.

Lemma attempts_of_run w prompt query k (tried : list string) :
  attempts (similarity_search_call query k :: (model_event w prompt <$> tried))
  = (fun name => (name, ChatGoogleGenerativeAI w name prompt)) <$> tried.
Proof. by rewrite attempts_after_search, attempts_model_events. Qed.

(** [X5] Whatever the store and the models do, the models invoked by
    [generate_answer] are an initial segment of the configured list, primary
    first, each invoked once, and [generate_answer] never writes to the
    vector store. *)
Theorem attempts_follow_configured_order w settings query k :
  (attempts (run (generate_answer (__init__ w settings) w query k)).2).*1
    `prefix_of` config.LLM_MODEL settings :: config.LLM_FALLBACK_MODELS settings
  /\ stored (run (generate_answer (__init__ w settings) w query k)).2 = [].
Proof.
  destruct (similarity_search w query k) as [docs|e] eqn:Hs.
  - destruct (decide (docs = [])) as [->|Hne].
    + rewrite (generate_answer_no_documents _ _ _ _ Hs). split; [apply prefix_nil | done].
    + destruct (init_run_shape w settings query k docs Hs Hne)
        as (earlier & name & later & Hnames & _ & ->).
      cbn [snd]. rewrite attempts_of_run, attempted_names, Hnames. split.
      * apply prefix_app, prefix_cons, prefix_nil.
      * change (stored (similarity_search_call query k
                          :: (model_event w (prompt_for docs query) <$> earlier ++ [name])))
          with (stored (model_event w (prompt_for docs query) <$> earlier ++ [name])).
        apply stored_model_events.
  - rewrite (generate_answer_search_error _ _ _ _ e Hs). split; [apply prefix_nil | done].
Qed.

(** [X6] With a non-empty retrieval the primary model is always invoked, and
    it is invoked first. *)
Theorem primary_model_invoked_first w settings query k docs :
  similarity_search w query k = Return docs -> docs <> [] ->
  exists rest,
    attempts (run (generate_answer (__init__ w settings) w query k)).2
    = (config.LLM_MODEL settings,
       ChatGoogleGenerativeAI w (config.LLM_MODEL settings) (prompt_for docs query))
      :: rest.
Proof.
  intros Hs Hne.
  destruct (init_run_shape w settings query k docs Hs Hne)
    as (earlier & name & later & Hnames & _ & ->).
  cbn [snd]. rewrite attempts_of_run.
  destruct earlier as [|n earlier]; injection Hnames as <- _; eexists; reflexivity.
Qed.

Lemma primary_model_invoked_first_witness :
  exists rest,
    attempts (run (generate_answer
                     (__init__ (stub_world [shoes_doc] second_breaks) config.settings)
                     (stub_world [shoes_doc] second_breaks) "Do you ship shoes?" 3)).2
    = (config.LLM_MODEL config.settings,
       ChatGoogleGenerativeAI (stub_world [shoes_doc] second_breaks)
         (config.LLM_MODEL config.settings)
         (prompt_for [shoes_doc] "Do you ship shoes?"))
      :: rest.
Proof.
  apply (primary_model_invoked_first (stub_world [shoes_doc] second_breaks)
           config.settings "Do you ship shoes?" 3 [shoes_doc] eq_refl).
  discriminate.
Defined.

(** [X7] When [generate_answer] returns an answer for a non-empty
    retrieval, the answer is the text returned by the last model invoked,
    and every model invoked before it failed with a rate-limit-class
    error. *)
Theorem answer_is_last_attempt w settings query k docs ans log :
  similarity_search w query k = Return docs -> docs <> [] ->
  run (generate_answer (__init__ w settings) w query k) = (Return ans, log) ->
  exists earlier name,
    attempts log = earlier ++ [(name, Return (answer ans))]
    /\ Forall (fun a => exists e, a.2 = Raise e /\ rate_limited e = true) earlier.
Proof.
  intros Hs Hne Hrun.
  destruct (init_run_shape w settings query k docs Hs Hne)
    as (earlier & name & later & _ & Hearlier & Hshape).
  rewrite Hshape in Hrun.
  destruct (ChatGoogleGenerativeAI w name (prompt_for docs query)) as [text|e] eqn:Hn;
    [|done].
  injection Hrun as <- <-.
  exists ((fun n => (n, ChatGoogleGenerativeAI w n (prompt_for docs query))) <$> earlier), name.
  rewrite attempts_of_run, fmap_snoc, Hn. split; [done|].
  apply Forall_fmap. eapply Forall_impl; [exact Hearlier|]. by intros n.
Qed.

Lemma answer_is_last_attempt_witness :
  exists earlier name,
    attempts (run (generate_answer
                     (__init__ (stub_world [shoes_doc] third_answers) config.settings)
                     (stub_world [shoes_doc] third_answers) "Do you ship shoes?" 3)).2
    = earlier ++ [(name, Return "Two days.")]
    /\ Forall (fun a => exists e, a.2 = Raise e /\ rate_limited e = true) earlier.
Proof.
  apply (answer_is_last_attempt (stub_world [shoes_doc] third_answers) config.settings
           "Do you ship shoes?" 3 [shoes_doc]
           {| answer := "Two days."; sources := sources_of (_deduplicate [shoes_doc]) |}
           _ eq_refl).
  - discriminate.
  - reflexivity.
Defined.

(** [X8] An exception raised by [generate_answer] is the one raised by the
    store's search, no model having been invoked, or the one raised by the
    last model invoked. *)
Theorem raised_error_origin w settings query k e log :
  run (generate_answer (__init__ w settings) w query k) = (Raise e, log) ->
  (similarity_search w query k = Raise e /\ log = [similarity_search_call query k])
  \/ (exists earlier name, attempts log = earlier ++ [(name, Raise e)]).
Proof.
  intros Hrun.
  destruct (similarity_search w query k) as [docs|e'] eqn:Hs.
  - right. destruct (decide (docs = [])) as [->|Hne].
    + by rewrite (generate_answer_no_documents _ _ _ _ Hs) in Hrun.
    + destruct (init_run_shape w settings query k docs Hs Hne)
        as (earlier & name & later & _ & _ & Hshape).
      rewrite Hshape in Hrun.
      destruct (ChatGoogleGenerativeAI w name (prompt_for docs query)) as [text|e0] eqn:Hn;
        [done|].
      injection Hrun as -> <-.
      exists ((fun n => (n, ChatGoogleGenerativeAI w n (prompt_for docs query))) <$> earlier),
        name.
      by rewrite attempts_of_run, fmap_snoc, Hn.
  - left. rewrite (generate_answer_search_error _ _ _ _ e' Hs) in Hrun.
    by injection Hrun as -> <-.
Qed.

Lemma raised_error_origin_witness :
  (similarity_search (failing_search_world (mkException "connection refused") all_answer)
     "Do you ship shoes?" 3 = Raise (mkException "connection refused")
   /\ (run (generate_answer
              (__init__ (failing_search_world (mkException "connection refused") all_answer)
                 config.settings)
              (failing_search_world (mkException "connection refused") all_answer)
              "Do you ship shoes?" 3)).2
      = [similarity_search_call "Do you ship shoes?" 3])
  \/ (exists earlier name,
        attempts (run (generate_answer
              (__init__ (failing_search_world (mkException "connection refused") all_answer)
                 config.settings)
              (failing_search_world (mkException "connection refused") all_answer)
              "Do you ship shoes?" 3)).2
        = earlier ++ [(name, Raise (mkException "connection refused"))]).
Proof.
  apply (raised_error_origin
           (failing_search_world (mkException "connection refused") all_answer)
           config.settings "Do you ship shoes?" 3 (mkException "connection refused")).
  reflexivity.
Defined.

(** [X9] A retrieved chunk that repeats the text of an earlier one changes
    nothing: against the same models, the run on the retrieval with it and
    the run on the retrieval without it give the same result and the same
    log (same prompt, same models invoked). *)
Theorem repeated_chunk_same_run w settings query k before d1 between d2 after :
  similarity_search w query k = Return (before ++ d1 :: between ++ d2 :: after) ->
  page_content d1 = page_content d2 ->
  run (generate_answer (__init__ w settings) w query k)
  = run (generate_answer
           (__init__ (with_retrieval w (before ++ d1 :: between ++ after)) settings)
           (with_retrieval w (before ++ d1 :: between ++ after)) query k).
Proof.
  intros Hs Heq.
  rewrite (generate_answer_loop _ _ _ _ _ Hs) by (by destruct before).
  rewrite (generate_answer_loop _ (with_retrieval w (before ++ d1 :: between ++ after))
             query k (before ++ d1 :: between ++ after) eq_refl)
    by (by destruct before).
  by rewrite (deduplicate_without_later_duplicate _ _ _ _ _ Heq).
Qed.

Lemma repeated_chunk_same_run_witness :
  run (generate_answer
         (__init__ (stub_world [returns_a; returns_b; sizes_b] all_answer) config.settings)
         (stub_world [returns_a; returns_b; sizes_b] all_answer) "Are returns free?" 3)
  = run (generate_answer
           (__init__ (with_retrieval (stub_world [returns_a; returns_b; sizes_b] all_answer)
                        ([] ++ returns_a :: [] ++ [sizes_b])) config.settings)
           (with_retrieval (stub_world [returns_a; returns_b; sizes_b] all_answer)
              ([] ++ returns_a :: [] ++ [sizes_b])) "Are returns free?" 3).
Proof.
  exact (repeated_chunk_same_run (stub_world [returns_a; returns_b; sizes_b] all_answer)
           config.settings "Are returns free?" 3 [] returns_a [] returns_b [sizes_b]
           eq_refl eq_refl).
Defined.

(** [X10] The ellipsis is appended whether or not the text was cut: for a
    surviving chunk of at most 200 characters the content of its source
    entry is the whole text followed by "...", and in every case the
    content is 3 characters longer than the smaller of 200 and the length of
    the text. *)
Theorem preview_of_short_chunk self w query k docs ans log i doc :
  similarity_search w query k = Return docs ->
  run (generate_answer self w query k) = (Return ans, log) ->
  _deduplicate docs !! i = Some doc ->
  exists entry,
    sources ans !! i = Some entry
    /\ String.length (content entry)
       = (Nat.min 200 (String.length (page_content doc)) + 3)%nat
    /\ ((String.length (page_content doc) <= 200)%nat ->
        content entry = page_content doc +:+ "...").
Proof.
  intros Hs Hrun Hdoc. rewrite (answer_sources _ _ _ _ _ _ _ Hs Hrun).
  unfold sources_of. rewrite list_lookup_fmap, Hdoc. eexists. split; [reflexivity|].
  cbn [content]. split.
  - by rewrite length_append, slice_to_length.
  - intros Hshort. by rewrite slice_to_short.
Qed.

Lemma preview_of_short_chunk_witness :
  exists entry,
    sources {| answer := "Two days."; sources := sources_of (_deduplicate [shoes_doc]) |}
      !! 0%nat = Some entry
    /\ String.length (content entry)
       = (Nat.min 200 (String.length (page_content shoes_doc)) + 3)%nat
    /\ ((String.length (page_content shoes_doc) <= 200)%nat ->
        content entry = page_content shoes_doc +:+ "...").
Proof.
  exact (preview_of_short_chunk
           (__init__ (stub_world [shoes_doc] all_answer) config.settings)
           (stub_world [shoes_doc] all_answer) "Do you ship shoes?" 3 [shoes_doc]
           _ _ 0%nat shoes_doc eq_refl eq_refl eq_refl).
Defined.

End more_generate_answer.

(** ** More on document processing *)

Section more_document_processing.

Import document_service.

(** [X11] An exception is treated as a rate limit exactly when its text has
    RESOURCE_EXHAUSTED or 429 somewhere inside, whatever surrounds it. *)
Theorem rate_limited_iff_substring (e : Exception) :
  rag_service.rate_limited e = true
  <-> (exists a b, str e = a +:+ "RESOURCE_EXHAUSTED" +:+ b)
      \/ (exists a b, str e = a +:+ "429" +:+ b).
Proof.
  unfold rag_service.rate_limited.
  by rewrite orb_true_iff, !contains_substring.
Qed.

Lemma extract_pages_texts (texts : list string) :
  forall acc, extract_pages (Return <$> texts) acc = Return (acc +:+ page_texts texts).
Proof.
  induction texts as [|t texts IH]; intros acc; simpl.
  - by rewrite append_nil_r.
  - rewrite IH. destruct (pystr.truthy t); [|done]. by rewrite !append_assoc.
Qed.

Lemma extract_pages_error (texts : list string) e rest :
  forall acc, extract_pages ((Return <$> texts) ++ Raise e :: rest) acc = Raise e.
Proof. induction texts as [|t texts IH]; intros acc; simpl; [done | apply IH]. Qed.

(** [X12] The text extracted from a PDF is the texts of its pages in page
    order, each followed by a newline, the pages without text being
    skipped; and the first page whose extraction raises ends the extraction
    with that exception, whatever the pages after it hold. *)
Theorem extract_pages_in_order (texts : list string) e rest :
  extract_pages (Return <$> texts) EmptyString = Return (page_texts texts)
  /\ extract_pages ((Return <$> texts) ++ Raise e :: rest) EmptyString = Raise e.
Proof. split; [apply extract_pages_texts | apply extract_pages_error]. Qed.

Lemma newline_isspace : all_isspace pystr.newline = true.
Proof. reflexivity. Qed.

Lemma extract_pages_blank (pages : list (Outcome Exception string)) :
  Forall (fun page => exists t, page = Return t /\ all_isspace t = true) pages ->
  forall acc, exists text,
    extract_pages pages acc = Return text /\ all_isspace text = all_isspace acc.
Proof.
  induction 1 as [|page pages (t & -> & Ht) _ IH]; intros acc; simpl.
  - by exists acc.
  - destruct (IH (if pystr.truthy t then acc +:+ t +:+ pystr.newline else acc))
      as (text & Htext & Hsp).
    exists text. split; [done|]. rewrite Hsp.
    destruct (pystr.truthy t); [|done].
    by rewrite !all_isspace_append, Ht, newline_isspace, !andb_true_r.
Qed.

(** What [process_file] does with a file announced as a PDF. *)
Lemma process_file_pdf w file :
  content_type file = Some "application/pdf" ->
  run (process_file __init__ w file)
  = (match PdfReader w (document_service.file file) with
     | Raise e => Raise {| status_code := 500;
                           detail := "Failed to process PDF: " +:+ str e |}
     | Return pages =>
         match extract_pages pages EmptyString with
         | Raise e => Raise {| status_code := 500;
                               detail := "Failed to process PDF: " +:+ str e |}
         | Return text_content =>
             if pystr.truthy (pystr.strip text_content)
             then Return (split_text w 1000 200
                            [pystr.newline +:+ pystr.newline; pystr.newline; " ";
                             EmptyString] text_content)
             else Raise {| status_code := 422;
                           detail := "PDF contains no extractable text (may be scanned/image-based)." |}
         end
     end, []).
Proof.
  intros Hct. unfold run, process_file. rewrite decide_False by (by rewrite Hct; intros []).
  unfold bind, try_except, read_text, bind, map_error, try_except, lift.
  destruct (PdfReader w (document_service.file file)) as [pages|e]; [|done].
  destruct (extract_pages pages EmptyString) as [text|e]; [|done].
  by destruct (pystr.truthy (pystr.strip text)).
Qed.

End more_document_processing.

(** ** More on the HTTP layer *)

Section more_http.

Import endpoints.

(** What [upload_document] does once [process_file] has ended. *)
Lemma upload_document_after_processing w (file : document_service.UploadFile) :
  run (upload_document w file)
  = match run (document_service.process_file document_service.__init__ w file) with
    | (Raise http, log) => (Raise http, log)
    | (Return chunks, log) =>
        let metadatas :=
          replicate (length chunks)
            ({["source" := document_service.filename file]} : gmap string string) in
        (match chroma_add_texts w chunks metadatas with
         | Return _ =>
             Return {| schemas.filename := document_service.filename file;
                       schemas.content_type :=
                         default EmptyString (document_service.content_type file);
                       schemas.size := default 0 (document_service.size file);
                       schemas.chunks_created := Z.of_nat (length chunks);
                       schemas.message :=
                         "File processed and embeddings stored successfully." |}
         | Raise e => Raise {| status_code := 500; detail := str e |}
         end,
         log ++ [add_texts_call chunks metadatas])
    end.
Proof.
  unfold run, upload_document, try_except, bind, map_error, try_except, raise.
  destruct (document_service.process_file document_service.__init__ w file [])
    as [[chunks|http] log]; [|done].
  assert (Hmeta : map (fun _ : string =>
                         ({["source" := document_service.filename file]} : gmap string string))
                    chunks
                  = replicate (length chunks) {["source" := document_service.filename file]}).
  { induction chunks as [|c chunks IH]; [done|]. simpl. by rewrite IH. }
  rewrite Hmeta. unfold vector_service.add_texts, try_except, call, raise, ret.
  by destruct (chroma_add_texts w chunks _).
Qed.

(** [X13] Uploading a PDF whose text is not all whitespace, when the store
    accepts the chunks: the store receives one [add_texts] call, with the
    chunks of the splitter (chunk size 1000, overlap 200, the four
    separators) in order and, for each chunk, the metadata mapping "source"
    to the file name and nothing else; the response counts these chunks. *)
Theorem upload_stores_chunks_once w (file : document_service.UploadFile)
    pages text_content :
  document_service.content_type file = Some "application/pdf" ->
  PdfReader w (document_service.file file) = Return pages ->
  document_service.extract_pages pages EmptyString = Return text_content ->
  pystr.strip text_content <> EmptyString ->
  let chunks :=
    split_text w 1000 200
      [pystr.newline +:+ pystr.newline; pystr.newline; " "; EmptyString] text_content in
  let metadatas :=
    replicate (length chunks)
      ({["source" := document_service.filename file]} : gmap string string) in
  chroma_add_texts w chunks metadatas = Return tt ->
  run (upload_document w file)
  = (Return {| schemas.filename := document_service.filename file;
               schemas.content_type := "application/pdf";
               schemas.size := default 0 (document_service.size file);
               schemas.chunks_created := Z.of_nat (length chunks);
               schemas.message := "File processed and embeddings stored successfully." |},
     [add_texts_call chunks metadatas]).
Proof.
  intros Hct Hpdf Hpages Hstrip chunks metadatas Hadd.
  rewrite upload_document_after_processing, (process_file_pdf w file Hct), Hpdf, Hpages.
  destruct (pystr.strip text_content) eqn:Hs; [done|]. cbn [pystr.truthy].
  cbv zeta. fold chunks. fold metadatas. by rewrite Hadd, Hct.
Qed.

Lemma upload_stores_chunks_once_witness :
  run (upload_document
         (upload_world (Return [Return "Trail shoes."; Return EmptyString;
                                Return "Returns are free."]) (Return tt))
         catalog_pdf)
  = (Return {| schemas.filename := "catalog.pdf";
               schemas.content_type := "application/pdf";
               schemas.size := 0;
               schemas.chunks_created := 1;
               schemas.message := "File processed and embeddings stored successfully." |},
     [add_texts_call
        ["Trail shoes." +:+ pystr.newline +:+ "Returns are free." +:+ pystr.newline]
        [{["source" := "catalog.pdf"]}]]).
Proof.
  refine (upload_stores_chunks_once
            (upload_world (Return [Return "Trail shoes."; Return EmptyString;
                                   Return "Returns are free."]) (Return tt))
            catalog_pdf _ _ eq_refl eq_refl eq_refl _ eq_refl).
  discriminate.
Defined.

(** [X14] If the store refuses the chunks of an upload, the upload fails
    with status 500 and the text of the store's exception as detail; the
    store was called once, and is not called again. *)
Theorem upload_store_failure w (file : document_service.UploadFile) chunks e :
  (run (document_service.process_file document_service.__init__ w file)).1 = Return chunks ->
  chroma_add_texts w chunks
    (replicate (length chunks) {["source" := document_service.filename file]}) = Raise e ->
  run (upload_document w file)
  = (Raise {| status_code := 500; detail := str e |},
     [add_texts_call chunks
        (replicate (length chunks) {["source" := document_service.filename file]})]).
Proof.
  intros Hproc Hadd. rewrite upload_document_after_processing.
  destruct (decide (document_service.content_type file = Some "application/pdf"))
    as [Hct|Hct].
  - rewrite (process_file_pdf w file Hct) in Hproc |- *. cbn [fst] in Hproc.
    rewrite Hproc. cbv zeta. by rewrite Hadd.
  - exfalso. unfold run, document_service.process_file in Hproc.
    by rewrite decide_True in Hproc.
Qed.

Lemma upload_store_failure_witness :
  run (upload_document
         (upload_world (Return [Return "Trail shoes."])
            (Raise (mkException "disk full")))
         catalog_pdf)
  = (Raise {| status_code := 500; detail := "disk full" |},
     [add_texts_call ["Trail shoes." +:+ pystr.newline] [{["source" := "catalog.pdf"]}]]).
Proof.
  exact (upload_store_failure
           (upload_world (Return [Return "Trail shoes."]) (Raise (mkException "disk full")))
           catalog_pdf ["Trail shoes." +:+ pystr.newline] (mkException "disk full")
           eq_refl eq_refl).
Defined.

(** [X15] If pypdf raises, when opening the file or when extracting the
    text of a page, the upload of a PDF fails with status 500 and the
    detail "Failed to process PDF: " followed by the text of the exception,
    and the store is not called. *)
Theorem upload_parser_failure w (file : document_service.UploadFile) e :
  document_service.content_type file = Some "application/pdf" ->
  PdfReader w (document_service.file file) = Raise e
  \/ (exists texts rest,
        PdfReader w (document_service.file file)
        = Return ((Return <$> texts) ++ Raise e :: rest)) ->
  run (upload_document w file)
  = (Raise {| status_code := 500; detail := "Failed to process PDF: " +:+ str e |}, []).
Proof.
  intros Hct Hfail.
  rewrite upload_document_after_processing, (process_file_pdf w file Hct).
  destruct Hfail as [->|(texts & rest & ->)]; [done|].
  by rewrite extract_pages_error.
Qed.

Lemma upload_parser_failure_witness :
  run (upload_document
         (upload_world (Return [Return "Trail shoes."; Raise (mkException "bad xref")])
            (Return tt))
         catalog_pdf)
  = (Raise {| status_code := 500; detail := "Failed to process PDF: bad xref" |}, []).
Proof.
  refine (upload_parser_failure
            (upload_world (Return [Return "Trail shoes."; Raise (mkException "bad xref")])
               (Return tt))
            catalog_pdf (mkException "bad xref") eq_refl _).
  right. by exists ["Trail shoes."], [].
Defined.

(** [X16] A PDF all of whose pages extract to text made of whitespace only
    (or to no text at all) is answered with status 422, and the store is not
    called. *)
Theorem upload_blank_pdf w (file : document_service.UploadFile) pages :
  document_service.content_type file = Some "application/pdf" ->
  PdfReader w (document_service.file file) = Return pages ->
  Forall (fun page => exists t, page = Return t /\ all_isspace t = true) pages ->
  run (upload_document w file)
  = (Raise {| status_code := 422;
              detail := "PDF contains no extractable text (may be scanned/image-based)." |},
     []).
Proof.
  intros Hct Hpdf Hblank.
  rewrite upload_document_after_processing, (process_file_pdf w file Hct), Hpdf.
  destruct (extract_pages_blank pages Hblank EmptyString) as (text & -> & Hsp).
  by rewrite (strip_all_isspace text Hsp).
Qed.

Lemma upload_blank_pdf_witness :
  run (upload_document
         (upload_world (Return [Return EmptyString; Return " "; Return pystr.newline])
            (Return tt))
         catalog_pdf)
  = (Raise {| status_code := 422;
              detail := "PDF contains no extractable text (may be scanned/image-based)." |},
     []).
Proof.
  refine (upload_blank_pdf
            (upload_world (Return [Return EmptyString; Return " "; Return pystr.newline])
               (Return tt))
            catalog_pdf _ eq_refl eq_refl _).
  repeat constructor; eexists; split; reflexivity.
Defined.

(** [X17] Whatever the file, the parser, the splitter and the store do, an
    upload that fails fails with status 400, 422 or 500; the store is called
    at most once, and not at all when the status is 400 or 422. *)
Theorem upload_failure_statuses w (file : document_service.UploadFile) http log :
  run (upload_document w file) = (Raise http, log) ->
  (status_code http = 400 \/ status_code http = 422 \/ status_code http = 500)
  /\ (length (stored log) <= 1)%nat
  /\ (status_code http <> 500 -> log = []).
Proof.
  rewrite upload_document_after_processing.
  destruct (decide (document_service.content_type file = Some "application/pdf"))
    as [Hct|Hct].
  - rewrite (process_file_pdf w file Hct).
    destruct (PdfReader w (document_service.file file)) as [pages|e].
    + destruct (document_service.extract_pages pages EmptyString) as [text|e].
      * destruct (pystr.truthy (pystr.strip text)).
        -- cbv zeta. destruct (chroma_add_texts w _ _); [done|].
           intros [= <- <-]. cbn. split; [by right; right|]. split; [lia | done].
        -- intros [= <- <-]. cbn. split; [by right; left|]. split; [lia | done].
      * intros [= <- <-]. cbn. split; [by right; right|]. split; [lia | done].
    + intros [= <- <-]. cbn. split; [by right; right|]. split; [lia | done].
  - unfold run, document_service.process_file. rewrite decide_True by done.
    intros [= <- <-]. cbn. split; [by left|]. split; [lia | done].
Qed.

Lemma upload_failure_statuses_witness :
  (status_code {| status_code := 400; detail := "Only PDF files are supported." |} = 400
   \/ status_code {| status_code := 400; detail := "Only PDF files are supported." |} = 422
   \/ status_code {| status_code := 400; detail := "Only PDF files are supported." |} = 500)
  /\ (length (stored []) <= 1)%nat
  /\ (status_code {| status_code := 400; detail := "Only PDF files are supported." |} <> 500
      -> [] = ([] : list Event)).
Proof.
  exact (upload_failure_statuses (upload_world (Return []) (Return tt)) notes_txt
           _ _ eq_refl).
Defined.

Lemma chat_with_docs_run rag w (request : schemas.ChatRequest) :
  run (chat_with_docs rag w request)
  = match run (rag_service.generate_answer rag w
                 (schemas.query request) (schemas.k request)) with
    | (Return response, log) =>
        (Return {| schemas.answer := rag_service.answer response;
                   schemas.sources := map to_Source (rag_service.sources response) |},
         log)
    | (Raise e, log) => (Raise {| status_code := 500; detail := str e |}, log)
    end.
Proof.
  unfold run, chat_with_docs, try_except, bind.
  by destruct (rag_service.generate_answer rag w _ _ []) as [[response|e] log].
Qed.

Lemma validate_accepts (q : string) (given : option Z) :
  (1 <= String.length q)%nat ->
  1 <= default 3 given <= 10 ->
  schemas.validate {| schemas.body_query := Some q; schemas.body_k := given |}
  = Some {| schemas.query := q; schemas.k := default 3 given |}.
Proof.
  intros Hq Hk. unfold schemas.validate. cbn [schemas.body_query schemas.body_k].
  destruct (Nat.leb_spec 1 (String.length q)) as [_|?]; [|lia].
  destruct (Z.leb_spec 1 (default 3 given)) as [_|?]; [|lia].
  destruct (Z.leb_spec (default 3 given) 10) as [_|?]; [|lia]. done.
Qed.

(** [X18] A valid chat request against a store that finds nothing is
    answered successfully, with the fixed answer and no sources; the store
    is searched once, with the request's query and [k] (3 when the request
    gives none), and no model is invoked. *)
Theorem chat_without_documents rag w (q : string) (given : option Z) :
  (1 <= String.length q)%nat ->
  1 <= default 3 given <= 10 ->
  similarity_search w q (default 3 given) = Return [] ->
  post_chat rag w {| schemas.body_query := Some q; schemas.body_k := given |}
  = Handled
      (Return {| schemas.answer :=
                   "I couldn't find any relevant documents to answer your question.";
                 schemas.sources := [] |})
      [similarity_search_call q (default 3 given)].
Proof.
  intros Hq Hk Hs. unfold post_chat. rewrite (validate_accepts q given Hq Hk).
  rewrite chat_with_docs_run. cbn [schemas.query schemas.k].
  by rewrite (generate_answer_no_documents _ _ _ _ Hs).
Qed.

Lemma chat_without_documents_witness :
  post_chat (rag_service.__init__ (stub_world [] all_answer) config.settings)
    (stub_world [] all_answer)
    {| schemas.body_query := Some "Do you ship shoes?"; schemas.body_k := None |}
  = Handled
      (Return {| schemas.answer :=
                   "I couldn't find any relevant documents to answer your question.";
                 schemas.sources := [] |})
      [similarity_search_call "Do you ship shoes?" 3].
Proof.
  refine (chat_without_documents
            (rag_service.__init__ (stub_world [] all_answer) config.settings)
            (stub_world [] all_answer) "Do you ship shoes?" None _ _ eq_refl).
  - simpl. lia.
  - simpl. lia.
Defined.

(** [X19] A valid chat request whose retrieval is not empty, when every
    configured model is out of quota: the answer is a failure of status 500
    whose detail is the text of the last model's exception. *)
Theorem chat_with_exhausted_models w settings (q : string) (given : option Z) docs :
  (1 <= String.length q)%nat ->
  1 <= default 3 given <= 10 ->
  similarity_search w q (default 3 given) = Return docs -> docs <> [] ->
  (forall name,
      name ∈ config.LLM_MODEL settings :: config.LLM_FALLBACK_MODELS settings ->
      exists e, ChatGoogleGenerativeAI w name (prompt_for docs q) = Raise e
                /\ rag_service.rate_limited e = true) ->
  exists last_model e_last log,
    last (config.LLM_MODEL settings :: config.LLM_FALLBACK_MODELS settings)
      = Some last_model
    /\ ChatGoogleGenerativeAI w last_model (prompt_for docs q) = Raise e_last
    /\ post_chat (rag_service.__init__ w settings) w
         {| schemas.body_query := Some q; schemas.body_k := given |}
       = Handled (Raise {| status_code := 500; detail := str e_last |}) log.
Proof.
  intros Hq Hk Hs Hne Hall.
  destruct (exists_last (l := config.LLM_MODEL settings :: config.LLM_FALLBACK_MODELS settings))
    as (pre & last_model & Hnames); [done|].
  rewrite Hnames in Hall |- *.
  destruct (Hall last_model) as (e_last & Hlast & Hrl);
    [apply elem_of_app; right; left|].
  exists last_model, e_last. eexists. rewrite last_snoc. split; [done|]. split; [done|].
  unfold post_chat. rewrite (validate_accepts q given Hq Hk).
  rewrite chat_with_docs_run. cbn [schemas.query schemas.k].
  rewrite (init_run_exhausted w settings q (default 3 given) docs pre last_model e_last
             Hs Hne Hnames);
    [reflexivity|apply Forall_forall; intros n Hn; apply Hall, elem_of_app; by left
    |done|done].
Qed.

Lemma chat_with_exhausted_models_witness :
  exists last_model e_last log,
    last (config.LLM_MODEL config.settings :: config.LLM_FALLBACK_MODELS config.settings)
      = Some last_model
    /\ ChatGoogleGenerativeAI (stub_world [shoes_doc] all_out_of_quota) last_model
         (prompt_for [shoes_doc] "Do you ship shoes?") = Raise e_last
    /\ post_chat
         (rag_service.__init__ (stub_world [shoes_doc] all_out_of_quota) config.settings)
         (stub_world [shoes_doc] all_out_of_quota)
         {| schemas.body_query := Some "Do you ship shoes?"; schemas.body_k := Some 5 |}
       = Handled (Raise {| status_code := 500; detail := str e_last |}) log.
Proof.
  apply (chat_with_exhausted_models (stub_world [shoes_doc] all_out_of_quota)
           config.settings "Do you ship shoes?" (Some 5) [shoes_doc]).
  - simpl. lia.
  - simpl. lia.
  - reflexivity.
  - discriminate.
  - intros name _. simpl. unfold all_out_of_quota.
    destruct (decide (name = "gemini-2.5-flash")); eexists; split; reflexivity.
Defined.

(** [X20] A chat request without a query, or with the empty query, is
    rejected by validation whatever its [k], and nothing is processed. *)
Theorem chat_rejects_missing_query rag w (body : schemas.ChatBody) :
  schemas.body_query body = None \/ schemas.body_query body = Some EmptyString ->
  post_chat rag w body = RequestValidationError.
Proof.
  intros Hq. unfold post_chat, schemas.validate. by destruct Hq as [->| ->].
Qed.

Lemma chat_rejects_missing_query_witness :
  post_chat (rag_service.__init__ (stub_world [shoes_doc] all_answer) config.settings)
    (stub_world [shoes_doc] all_answer)
    {| schemas.body_query := Some EmptyString; schemas.body_k := Some 3 |}
  = RequestValidationError.
Proof.
  apply (chat_rejects_missing_query
           (rag_service.__init__ (stub_world [shoes_doc] all_answer) config.settings)
           (stub_world [shoes_doc] all_answer)
           {| schemas.body_query := Some EmptyString; schemas.body_k := Some 3 |}).
  by right.
Defined.

End more_http.
